(** * Corpus pipeline: acquisition normalizers and the corpus store

    A shallow embedding of [src/acquisition.py] and [src/corpus.py].

    Python values are dynamically typed; the embedding keeps the dynamic
    shape where the source inspects it ([isinstance], [in], [.get]) and
    raises the interpreter's own exceptions where the source would. *)

From Stdlib Require Import List ZArith NArith QArith Bool Lia String Ascii.
From Stdlib Require Import DecimalString Permutation Sorted.
Import ListNotations.
Close Scope Q_scope.
Open Scope nat_scope.

Set Implicit Arguments.
Set Warnings "-register-all".

(** ** Python strings *)

Module Py.

(** A [str] is a sequence of code points; [len] counts code points. *)
Definition char := N.
Definition pystr := list char.

(** ASCII literal of the source text. *)
Definition lit (s : string) : pystr :=
  map N_of_ascii (list_ascii_of_string s).

Definition empty : pystr := [].

Definition NL : char := 10%N.
Definition CR : char := 13%N.
Definition TAB : char := 9%N.
Definition SPACE : char := 32%N.
Definition DQUOTE : char := 34%N.
Definition DOT : char := 46%N.

Fixpoint str_eqb (a b : pystr) : bool :=
  match a, b with
  | [], [] => true
  | x :: a', y :: b' => N.eqb x y && str_eqb a' b'
  | _, _ => false
  end.

(** [s.replace(old, new)] for one-character [old] and [new]. *)
Definition replace_char (old new : char) (s : pystr) : pystr :=
  map (fun c => if N.eqb c old then new else c) s.

(** [s.count(c)] for a one-character [c]. *)
Definition count_char (c : char) (s : pystr) : nat :=
  List.length (filter (N.eqb c) s).

Fixpoint starts_with (p s : pystr) : bool :=
  match p, s with
  | [], _ => true
  | x :: p', y :: s' => N.eqb x y && starts_with p' s'
  | _ :: _, [] => false
  end.

(** [p in s] for two strings: substring test. *)
Fixpoint substring_of (p s : pystr) : bool :=
  starts_with p s ||
  match s with
  | [] => false
  | _ :: s' => substring_of p s'
  end.

(** The exceptions the modelled code can raise. *)
Inductive exn :=
| AttributeError
| TypeError
| KeyError
| IndexError
| FileNotFoundError
| EmptyDataError
| ParserError
| UnicodeEncodeError
| OSError.

(** Result of a computation that may raise. *)
Inductive result (A : Type) :=
| Ok (a : A)
| Raise (e : exn).
Arguments Ok {A} a.
Arguments Raise {A} e.

Definition bind {A B} (m : result A) (k : A -> result B) : result B :=
  match m with
  | Ok a => k a
  | Raise e => Raise e
  end.

(** A [for] loop whose body may raise: stops at the first exception. *)
Fixpoint mapM {A B} (f : A -> result B) (l : list A) : result (list B) :=
  match l with
  | [] => Ok []
  | x :: l' =>
      bind (f x) (fun y => bind (mapM f l') (fun ys => Ok (y :: ys)))
  end.

(** Dynamically typed values, as [xmltodict.parse] and praw hand them over. *)
Inductive pyval :=
| VNone
| VStr (s : pystr)
| VNum (q : Q)
| VList (l : list pyval)
| VDict (d : list (pystr * pyval)).

(** Lookup in a dict (insertion ordered, first binding of the key). *)
Fixpoint lookup (k : pystr) (d : list (pystr * pyval)) : option pyval :=
  match d with
  | [] => None
  | (k', v) :: d' => if str_eqb k k' then Some v else lookup k d'
  end.

(** [x[k]] with a string key. *)
Definition getitem (x : pyval) (k : pystr) : result pyval :=
  match x with
  | VDict d =>
      match lookup k d with
      | Some v => Ok v
      | None => Raise KeyError
      end
  | _ => Raise TypeError
  end.

(** [x.get(k, default)]: only dicts have the method. *)
Definition get (x : pyval) (k : pystr) (default : pyval) : result pyval :=
  match x with
  | VDict d =>
      match lookup k d with
      | Some v => Ok v
      | None => Ok default
      end
  | _ => Raise AttributeError
  end.

(** [x.replace("\n", " ")]: only strings have the method. *)
Definition replace_nl (x : pyval) : result pystr :=
  match x with
  | VStr s => Ok (replace_char NL SPACE s)
  | _ => Raise AttributeError
  end.

Definition is_str_lit (k : pystr) (v : pyval) : bool :=
  match v with
  | VStr s => str_eqb k s
  | _ => false
  end.

(** [k in x] for a string [k]: key test on a dict, substring test on a
    string, membership on a list; other values are not containers. *)
Definition contains (k : pystr) (x : pyval) : result bool :=
  match x with
  | VDict d =>
      match lookup k d with
      | Some _ => Ok true
      | None => Ok false
      end
  | VStr s => Ok (substring_of k s)
  | VList l => Ok (existsb (is_str_lit k) l)
  | VNone | VNum _ => Raise TypeError
  end.

(** [a + b] on strings; the other operand types do not mix with [str]. *)
Definition add_str (a b : pyval) : result pystr :=
  match a, b with
  | VStr x, VStr y => Ok (x ++ y)
  | _, _ => Raise TypeError
  end.

(** Inversion of a [bind] that returned. *)
Ltac bind_ok H :=
  match type of H with
  | bind ?m _ = Ok _ =>
      let E := fresh "E" in
      destruct m eqn:E; simpl in H; [|discriminate H]
  end.

End Py.

(** ** Documents *)

(** A document is the dict the acquisition builds and the corpus reads:
    the two keys the corpus uses, and the remaining keys in insertion
    order.  [T] is the type of the cells held under ['texte'] and
    ['source']: [pystr] for acquired documents. *)
Record Doc (T : Type) := mkDoc {
  texte : T;
  source : T;
  extra : list (Py.pystr * Py.pyval)
}.

(** ** src/acquisition.py *)

Module Acquisition.
Import Py.

(** What the code reads of a praw submission.  The two text-bearing
    attributes are dynamic ([None] when the attribute is absent);
    [author] is [None] for Python's [None], otherwise the redditor,
    whose [str()] is its name. *)
Record Submission := mkSubmission {
  title : option pyval;
  selftext : option pyval;
  author : option pystr;
  created_utc : pyval;
  permalink : pystr
}.

(** [submission.attr] *)
Definition getattr (a : option pyval) : result pyval :=
  match a with
  | Some v => Ok v
  | None => Raise AttributeError
  end.

(** [str(submission.author)] *)
Definition str_author (a : option pystr) : pystr :=
  match a with
  | Some name => name
  | None => lit "None"
  end.

(** Body of the loop of [get_reddit_docs]. *)
Definition reddit_doc (submission : Submission) : result (Doc pystr) :=
  bind (getattr (title submission)) (fun t =>
  bind (add_str t (VStr (lit " "))) (fun t_sp =>
  bind (getattr (selftext submission)) (fun body =>
  bind (add_str (VStr t_sp) body) (fun texte0 =>
  let texte1 := replace_char NL SPACE texte0 in
  Ok (mkDoc texte1 (lit "reddit")
        [ (lit "titre", t);
          (lit "auteur", VStr (str_author (author submission)));
          (lit "date", created_utc submission);
          (lit "url", VStr (lit "https://reddit.com" ++ permalink submission)) ]))))).

(** [get_reddit_docs], given the submissions the search yields. *)
Definition get_reddit_docs (results : list Submission) : result (list (Doc pystr)) :=
  mapM reddit_doc results.

Definition Unknown : pyval := VStr (lit "Unknown").

(** Author resolution of [get_arxiv_docs] (lines 99-104). *)
Definition resolve_author (entry : pyval) : result pyval :=
  bind (contains (lit "author") entry) (fun present =>
  if present then
    bind (getitem entry (lit "author")) (fun a =>
    match a with
    | VDict _ => get a (lit "name") Unknown
    | VList l =>
        match l with
        | first :: _ => get first (lit "name") Unknown
        | [] => Raise IndexError
        end
    | _ => Ok Unknown
    end)
  else Ok Unknown).

(** Body of the loop of [get_arxiv_docs]. *)
Definition arxiv_doc (entry : pyval) : result (Doc pystr) :=
  bind (get entry (lit "summary") (VStr empty)) (fun s =>
  bind (replace_nl s) (fun texte0 =>
  bind (resolve_author entry) (fun auteur =>
  bind (get entry (lit "title") (VStr empty)) (fun t =>
  bind (replace_nl t) (fun titre =>
  bind (get entry (lit "published") (VStr empty)) (fun date =>
  bind (get entry (lit "id") (VStr empty)) (fun url =>
  Ok (mkDoc texte0 (lit "arxiv")
        [ (lit "titre", VStr titre);
          (lit "auteur", auteur);
          (lit "date", date);
          (lit "url", url) ])))))))).

(** Lines 91-92: a single result is put in a list. *)
Definition as_list (entries : pyval) : list pyval :=
  match entries with
  | VList l => l
  | e => [e]
  end.

(** [get_arxiv_docs], given [articles = xmltodict.parse(data)]. *)
Definition get_arxiv_docs (articles : pyval) : result (list (Doc pystr)) :=
  bind (getitem articles (lit "feed")) (fun feed =>
  bind (contains (lit "entry") feed) (fun present =>
  if present then
    bind (getitem feed (lit "entry")) (fun entries =>
    mapM arxiv_doc (as_list entries))
  else Ok [])).

(** [get_docs]: reddit first, then arxiv, concatenated. *)
Definition get_docs (results : list Submission) (articles : pyval)
  : result (list (Doc pystr)) :=
  bind (get_reddit_docs results) (fun docs_reddit =>
  bind (get_arxiv_docs articles) (fun docs_arxiv =>
  Ok (docs_reddit ++ docs_arxiv))).

(** The text-bearing attributes of a submission are there and are
    strings. *)
Definition reddit_text_present (submission : Submission) : bool :=
  match title submission, selftext submission with
  | Some (VStr _), Some (VStr _) => true
  | _, _ => false
  end.

(** The summary of an entry is a string, or is missing from the entry (the
    case the code falls back on). *)
Definition arxiv_text_present (entry : pyval) : bool :=
  match entry with
  | VDict d =>
      match lookup (lit "summary") d with
      | None | Some (VStr _) => true
      | Some _ => false
      end
  | _ => false
  end.

(** Sample records. *)
Definition sample_submission : Submission :=
  mkSubmission (Some (VStr (lit "Title"))) (Some (VStr (NL :: lit "body")))
               (Some (lit "alice")) (VNum 0%Q) (lit "/r/x/1").

Definition bodyless_submission : Submission :=
  mkSubmission (Some (VStr (lit "Title"))) None None (VNum 0%Q) (lit "/r/x/2").

Definition sample_entry : pyval :=
  VDict [ (lit "summary", VStr (lit "An" ++ NL :: lit "abstract."));
          (lit "author", VList [ VDict [(lit "name", VStr (lit "Ada"))];
                                 VDict [(lit "name", VStr (lit "Bob"))] ]);
          (lit "title", VStr (lit "On things")) ].

Definition null_summary_entry : pyval :=
  VDict [ (lit "summary", VNone); (lit "title", VStr (lit "On things")) ].

Definition feed_of (entries : pyval) : pyval :=
  VDict [ (lit "feed", VDict [ (lit "title", VStr (lit "ArXiv Query"));
                               (lit "entry", entries) ]) ].

Definition empty_feed : pyval :=
  VDict [ (lit "feed", VDict [ (lit "title", VStr (lit "ArXiv Query")) ]) ].

(** [str(n)] for an integer. *)
Definition str_Z (n : Z) : pystr :=
  lit (NilZero.string_of_int (Z.to_int n)).

Definition PLUS : char := 43%N.

(** Lines 74-75 of [get_arxiv_docs]: the address queried. *)
Definition arxiv_url (keyword : pystr) (limit : Z) : pystr :=
  let query := replace_char SPACE PLUS keyword in
  lit "http://export.arxiv.org/api/query?search_query=all:" ++ query
  ++ lit "&start=0&max_results=" ++ str_Z limit.

(** The keys of a document beside ['texte'] and ['source']. *)
Definition extra_keys : list pystr :=
  [lit "titre"; lit "auteur"; lit "date"; lit "url"].

End Acquisition.

(** ** The pandas calls of the store

    [DataFrame.to_csv(filename, sep='\t', index=False)] and
    [pd.read_csv(filename, sep='\t')] with every other option at its
    default: quoting [QUOTE_MINIMAL], the double quote as quote character,
    doubled inside a quoted field, line feed as line terminator (POSIX),
    first line as header, default NA strings, blank lines
    skipped, C tokenizer, the file read in one chunk.  A file is its
    decoded text. *)

Module Pandas.
Import Py.

(** The file system as the store meets it: the text of the file at a
    path, if there is one, and whether a path can be opened for writing
    (its directory exists and the file may be written). *)
Record FS := mkFS {
  content : pystr -> option pystr;
  can_open : pystr -> bool
}.

Definition write_file (fs : FS) (filename text : pystr) : FS :=
  mkFS (fun p => if str_eqb p filename then Some text else content fs p)
       (can_open fs).

(** *** Writing *)

Section Writer.

(** Whether [csv.writer] also quotes a carriage return when the line
    terminator is the line feed (it does from Python 3.13 on). *)
Variable quote_cr : bool.

Definition special (c : char) : bool :=
  (c =? TAB)%N || (c =? DQUOTE)%N || (c =? NL)%N || (quote_cr && (c =? CR)%N).

Definition needs_quote (f : pystr) : bool := existsb special f.

(** Every quote character is doubled. *)
Fixpoint double_quotes (f : pystr) : pystr :=
  match f with
  | [] => []
  | c :: f' =>
      if (c =? DQUOTE)%N then DQUOTE :: DQUOTE :: double_quotes f'
      else c :: double_quotes f'
  end.

Definition write_field (f : pystr) : pystr :=
  if needs_quote f then DQUOTE :: double_quotes f ++ [DQUOTE] else f.

Fixpoint join_tab (l : list pystr) : pystr :=
  match l with
  | [] => []
  | [f] => f
  | f :: l' => f ++ TAB :: join_tab l'
  end.

(** One record; a record made of a single empty field is written as an
    empty quoted field. *)
Definition write_row (r : list pystr) : pystr :=
  match r with
  | [ [] ] => [DQUOTE; DQUOTE; NL]
  | _ => join_tab (map write_field r) ++ [NL]
  end.

Definition write_rows (rs : list (list pystr)) : pystr :=
  List.concat (map write_row rs).

(** UTF-8 can encode every code point but the surrogates. *)
Definition encodable (c : char) : bool :=
  ((c <? 55296) || (57343 <? c) && (c <=? 1114111))%N.

(** Records are written one at a time, each whole: the first one that
    cannot be encoded stops the writing and is not written.  The text
    written, and whether the end was reached. *)
Fixpoint write_lines (rs : list (list pystr)) : pystr * bool :=
  match rs with
  | [] => ([], true)
  | r :: rs' =>
      if forallb encodable (write_row r)
      then let (text, done) := write_lines rs' in (write_row r ++ text, done)
      else ([], false)
  end.

(** What [to_csv] writes for a header and its records, once the file is
    open. *)
Definition to_csv (header : list pystr) (records : list (list pystr))
  : pystr * bool :=
  write_lines (header :: records).

End Writer.

(** *** Tokenizing *)

Inductive tstate :=
| START_RECORD
| START_FIELD
| IN_FIELD
| IN_QUOTED_FIELD
| QUOTE_IN_QUOTED_FIELD
| EAT_CRNL
| EAT_CRNL_NOP
| WHITESPACE_LINE.

(** The tokenizer: its state, the open field, the closed fields of the
    open line, the closed lines. *)
Record tok := mkTok {
  state : tstate;
  field : pystr;
  fields : list pystr;
  lines : list (list pystr)
}.

Definition PUSH_CHAR (c : char) (t : tok) (st : tstate) : tok :=
  mkTok st (field t ++ [c]) (fields t) (lines t).

Definition END_FIELD (t : tok) (st : tstate) : tok :=
  mkTok st [] (fields t ++ [field t]) (lines t).

Definition END_LINE (t : tok) (st : tstate) : tok :=
  mkTok st [] [] (lines t ++ [fields t]).

Definition goto (t : tok) (st : tstate) : tok :=
  mkTok st (field t) (fields t) (lines t).

Definition in_field (t : tok) (c : char) : tok :=
  if (c =? NL)%N then END_LINE (END_FIELD t IN_FIELD) START_RECORD
  else if (c =? CR)%N then END_FIELD t EAT_CRNL
  else if (c =? TAB)%N then END_FIELD t START_FIELD
  else PUSH_CHAR c t IN_FIELD.

Definition start_field (t : tok) (c : char) : tok :=
  if (c =? NL)%N then END_LINE (END_FIELD t START_FIELD) START_RECORD
  else if (c =? CR)%N then END_FIELD t EAT_CRNL
  else if (c =? DQUOTE)%N then goto t IN_QUOTED_FIELD
  else if (c =? TAB)%N then END_FIELD t START_FIELD
  else PUSH_CHAR c t IN_FIELD.

(** An empty line is skipped; a line that starts with a space may be a
    blank line. *)
Definition start_record (t : tok) (c : char) : tok :=
  if (c =? NL)%N then goto t START_RECORD
  else if (c =? CR)%N then goto t EAT_CRNL_NOP
  else if (c =? SPACE)%N then PUSH_CHAR c t WHITESPACE_LINE
  else start_field t c.

Definition step (t : tok) (c : char) : tok :=
  match state t with
  | START_RECORD => start_record t c
  | START_FIELD => start_field t c
  | IN_FIELD => in_field t c
  | IN_QUOTED_FIELD =>
      if (c =? DQUOTE)%N then goto t QUOTE_IN_QUOTED_FIELD
      else PUSH_CHAR c t IN_QUOTED_FIELD
  | QUOTE_IN_QUOTED_FIELD =>
      if (c =? DQUOTE)%N then PUSH_CHAR c t IN_QUOTED_FIELD
      else if (c =? TAB)%N then END_FIELD t START_FIELD
      else if (c =? NL)%N then END_LINE (END_FIELD t START_FIELD) START_RECORD
      else if (c =? CR)%N then END_FIELD t EAT_CRNL
      else PUSH_CHAR c t IN_FIELD
  | EAT_CRNL =>
      if (c =? NL)%N then END_LINE t START_RECORD
      else if (c =? TAB)%N then END_FIELD (END_LINE t START_FIELD) START_FIELD
      else start_record (END_LINE t START_RECORD) c
  | EAT_CRNL_NOP =>
      if (c =? NL)%N || (c =? TAB)%N then goto t START_RECORD
      else start_record (goto t START_RECORD) c
  | WHITESPACE_LINE =>
      if (c =? NL)%N then mkTok START_RECORD [] (fields t) (lines t)
      else if (c =? CR)%N then mkTok EAT_CRNL_NOP [] (fields t) (lines t)
      else if (c =? SPACE)%N then PUSH_CHAR c t WHITESPACE_LINE
      else in_field t c
  end.

(** End of input. *)
Definition handle_eof (t : tok) : result (list (list pystr)) :=
  match state t with
  | START_RECORD | WHITESPACE_LINE | EAT_CRNL_NOP => Ok (lines t)
  | IN_QUOTED_FIELD => Raise ParserError
  | IN_FIELD | START_FIELD | QUOTE_IN_QUOTED_FIELD =>
      Ok (lines (END_LINE (END_FIELD t START_FIELD) START_RECORD))
  | EAT_CRNL => Ok (lines (END_LINE t START_RECORD))
  end.

(** A byte order mark at the start of the file is skipped. *)
Definition skip_bom (text : pystr) : pystr :=
  match text with
  | c :: text' => if (c =? 65279)%N then text' else text
  | [] => []
  end.

Definition tokenize (text : pystr) : result (list (list pystr)) :=
  handle_eof (fold_left step (skip_bom text) (mkTok START_RECORD [] [] [])).

(** *** Reading *)

(** A line shorter than the table is completed with empty fields. *)
Definition pad (width : nat) (r : list pystr) : list pystr :=
  r ++ repeat [] (width - List.length r).

(** From the second data line on, a line longer than the one before it
    is an error. *)
Fixpoint align_rest (width : nat) (rs : list (list pystr))
  : result (list (list pystr)) :=
  match rs with
  | [] => Ok []
  | r :: rs' =>
      if width <? List.length r then Raise ParserError
      else bind (align_rest width rs') (fun t => Ok (pad width r :: t))
  end.

(** The first data line fixes the width of the table; it may be longer
    than the header. *)
Definition table_width (n_header : nat) (data : list (list pystr)) : nat :=
  match data with
  | [] => n_header
  | r1 :: _ => Nat.max n_header (List.length r1)
  end.

Definition align (n_header : nat) (data : list (list pystr))
  : result (list (list pystr)) :=
  match data with
  | [] => Ok []
  | r1 :: rest =>
      let width := table_width n_header data in
      bind (align_rest width rest) (fun t => Ok (pad width r1 :: t))
  end.

(** The strings read as a missing value. *)
Definition na_values : list pystr :=
  [] :: map lit [ "#N/A"; "#N/A N/A"; "#NA"; "-1.#IND"; "-1.#QNAN"; "-NaN";
            "-nan"; "1.#IND"; "1.#QNAN"; "<NA>"; "N/A"; "NA"; "NULL"; "NaN";
            "None"; "n/a"; "nan"; "null" ]%string.

Definition is_na (w : pystr) : bool := existsb (str_eqb w) na_values.

Definition true_values : list pystr := map lit [ "True"; "TRUE"; "true" ]%string.
Definition false_values : list pystr := map lit [ "False"; "FALSE"; "false" ]%string.

(** ASCII lower case. *)
Definition lower (c : char) : char :=
  if ((65 <=? c) && (c <=? 90))%N then (c + 32)%N else c.

(** Beside the listed spellings, the words true and false are read as
    booleans in any letter case. *)
Definition is_true (w : pystr) : bool :=
  existsb (str_eqb w) true_values || str_eqb (map lower w) (lit "true").

Definition is_false (w : pystr) : bool :=
  existsb (str_eqb w) false_values || str_eqb (map lower w) (lit "false").

Definition is_bool (w : pystr) : bool := is_true w || is_false w.

(** A cell of the frame read: a string, a missing value, a number (kept
    as its literal), a boolean. *)
Inductive cell :=
| CStr (s : pystr)
| CNaN
| CNum (literal : pystr)
| CBool (b : bool).

Inductive kind := KNaN | KNum | KBool | KStr.

Record Frame := mkFrame {
  columns : list pystr;
  records : list (list cell)
}.

Section Reader.

(** The numeric literals of the parser (its integer and floating point
    grammar), taken as given. *)
Variable is_number : pystr -> bool.

(** The type of a column is read off its tokens, missing values apart:
    numbers first, then booleans, else strings. *)
Definition column_kind (tokens : list pystr) : kind :=
  let present := filter (fun w => negb (is_na w)) tokens in
  match present with
  | [] => KNaN
  | _ :: _ =>
      if forallb is_number present then KNum
      else if forallb is_bool present then KBool
      else KStr
  end.

Definition convert (k : kind) (w : pystr) : cell :=
  if is_na w then CNaN
  else
    match k with
    | KNaN => CNaN
    | KNum => CNum w
    | KBool => CBool (is_true w)
    | KStr => CStr w
    end.

Definition column (j : nat) (body : list (list pystr)) : list pystr :=
  map (fun r => nth j r []) body.

Definition kinds (n : nat) (body : list (list pystr)) : list kind :=
  map (fun j => column_kind (column j body)) (seq 0 n).

Fixpoint convert_record (ks : list kind) (r : list pystr) : list cell :=
  match ks, r with
  | k :: ks', w :: r' => convert k w :: convert_record ks' r'
  | _, _ => []
  end.

(** [pd.read_csv(filename, sep='\t')].  The fields a data line has in
    excess of the header are its leading ones and form the index.  The
    columns are given under the names of the header line: the renaming
    of repeated or empty names (a suffix [.N], [Unnamed: N]) leaves the
    first column called ['texte'] or ['source'] under its name, which is
    all [load] looks up. *)
Definition read_csv (fs : FS) (filename : pystr) : result Frame :=
  match content fs filename with
  | None => Raise FileNotFoundError
  | Some text =>
      bind (tokenize text) (fun ls =>
      match ls with
      | [] => Raise EmptyDataError
      | header :: data =>
          let n := List.length header in
          bind (align n data) (fun data' =>
          let body := map (skipn (table_width n data - n)) data' in
          Ok (mkFrame header (map (convert_record (kinds n body)) body)))
      end)
  end.

End Reader.

(** [row[label]] on a line of the frame. *)
Fixpoint row_get (cols : list pystr) (record : list cell) (label : pystr)
  : result cell :=
  match cols, record with
  | c :: cols', v :: record' =>
      if str_eqb label c then Ok v else row_get cols' record' label
  | _, _ => Raise KeyError
  end.

(** *** Reading back what was written: the terms of the round trip *)



Definition is_digit (c : char) : Prop := (48 <= c <= 57)%N.

Section WrittenBack.

Variable quote_cr : bool.

(** A string the file can hold and give back: it can be encoded, and its
    carriage returns, if any, get quoted. *)
Definition writable (f : pystr) : bool :=
  forallb encodable f
  && (quote_cr || negb (existsb (N.eqb CR) f)).





End WrittenBack.

End Pandas.

(** ** src/corpus.py: the store *)

Module Store.
Import Py.

(** One line of the table: the columns ['id'], ['texte'], ['source']. *)
Record Row (T : Type) := mkRow {
  row_id : nat;
  row_texte : T;
  row_source : T
}.

(** The three columns [get_stats] adds to a line. *)
Record Counts := mkCounts {
  nb_mots : nat;
  nb_phrases : nat;
  nb_chars : nat
}.

(** The shapes [self.df] takes: [pd.DataFrame()] (no column, no line),
    the three-column table, and the table once [get_stats] has added its
    columns. *)
Inductive DataFrame (T : Type) :=
| DfEmpty
| DfBase (rows : list (Row T))
| DfStats (rows : list (Row T * Counts)).
Arguments DfEmpty {T}.

Record Corpus (T : Type) := mkCorpus {
  docs : list (Doc T);
  df : DataFrame T
}.

Section Frame.
Context {T : Type}.

(** The ['id'], ['texte'], ['source'] part of the table, line by line. *)
Definition base_rows (d : DataFrame T) : list (Row T) :=
  match d with
  | DfEmpty => []
  | DfBase rows => rows
  | DfStats rows => map fst rows
  end.

(** [len(df)] *)
Definition df_len (d : DataFrame T) : nat := List.length (base_rows d).

(** [df.empty]: some axis has length zero. *)
Definition df_empty (d : DataFrame T) : bool :=
  match base_rows d with
  | [] => true
  | _ :: _ => false
  end.

(** [df.columns] *)
Definition df_columns (d : DataFrame T) : list pystr :=
  match d with
  | DfEmpty => []
  | DfBase _ => [lit "id"; lit "texte"; lit "source"]
  | DfStats _ =>
      [lit "id"; lit "texte"; lit "source";
       lit "nb_mots"; lit "nb_phrases"; lit "nb_chars"]
  end.

Definition ids (d : DataFrame T) : list nat := map (@row_id T) (base_rows d).

(** The (texte, source) pairs of the table, in line order. *)
Definition text_source (d : DataFrame T) : list (T * T) :=
  map (fun r => (row_texte r, row_source r)) (base_rows d).

(** [for i, doc in enumerate(self.docs)] building the lines, from [i]. *)
Fixpoint rows_from (i : nat) (l : list (Doc T)) : list (Row T) :=
  match l with
  | [] => []
  | doc :: l' => mkRow i (texte doc) (source doc) :: rows_from (S i) l'
  end.

Definition _create_dataframe (l : list (Doc T)) : DataFrame T :=
  match l with
  | [] => DfEmpty
  | _ :: _ => DfBase (rows_from 0 l)
  end.

(** [Corpus(docs)] *)
Definition new (l : list (Doc T)) : Corpus T :=
  mkCorpus l (_create_dataframe l).

(** [len(corpus)] *)
Definition len (c : Corpus T) : nat := df_len (df c).

(** [df['id'] = range(len(df))] on a list of lines, counting from [i]. *)
Fixpoint renumber_from (i : nat) (rows : list (Row T)) : list (Row T) :=
  match rows with
  | [] => []
  | r :: rows' => mkRow i (row_texte r) (row_source r) :: renumber_from (S i) rows'
  end.

Fixpoint renumber_stats_from (i : nat) (rows : list (Row T * Counts))
  : list (Row T * Counts) :=
  match rows with
  | [] => []
  | (r, k) :: rows' =>
      (mkRow i (row_texte r) (row_source r), k) :: renumber_stats_from (S i) rows'
  end.

End Frame.

(** [df['texte'].str.len() > min_length] on one line. *)
Definition longer_than (min_length : Z) (r : Row pystr) : bool :=
  (min_length <? Z.of_nat (List.length (row_texte r)))%Z.

(** What [clean] prints after filtering. *)
Record CleanReport := mkCleanReport {
  nb_avant : nat;
  nb_apres : nat;
  nb_supprimes : nat
}.

(** Lines 104 and 107 of [clean]: the filter, then the new ['id'] column. *)
Definition filter_renumber (min_length : Z) (d : DataFrame pystr)
  : DataFrame pystr :=
  match d with
  | DfEmpty => DfEmpty
  | DfBase rows => DfBase (renumber_from 0 (filter (longer_than min_length) rows))
  | DfStats rows =>
      DfStats (renumber_stats_from 0
                 (filter (fun rk => longer_than min_length (fst rk)) rows))
  end.

(** [clean]: the store afterwards and the counts it prints ([None] when
    it returns early on an empty table). *)
Definition clean (min_length : Z) (c : Corpus pystr)
  : Corpus pystr * option CleanReport :=
  if df_empty (df c) then (c, None)
  else
    let avant := df_len (df c) in
    let df' := filter_renumber min_length (df c) in
    let apres := df_len df' in
    (mkCorpus (docs c) df', Some (mkCleanReport avant apres (avant - apres))).

(** The filter of [clean], on a (texte, source) pair. *)
Definition kept (min_length : Z) (p : pystr * pystr) : bool :=
  (min_length <? Z.of_nat (List.length (fst p)))%Z.

(** [" ".join(l)] *)
Fixpoint join_space (l : list pystr) : pystr :=
  match l with
  | [] => []
  | [s] => s
  | s :: l' => s ++ SPACE :: join_space l'
  end.

(** [to_text] *)
Definition to_text (c : Corpus pystr) : pystr :=
  if df_empty (df c) then empty
  else join_space (map (@row_texte pystr) (base_rows (df c))).

(** [str.isspace] on one code point: what [str.split()] splits on. *)
Definition is_space (c : char) : bool :=
  ((9 <=? c) && (c <=? 13) || (28 <=? c) && (c <=? 32)
   || (c =? 133) || (c =? 160) || (c =? 5760)
   || (8192 <=? c) && (c <=? 8202)
   || (c =? 8232) || (c =? 8233) || (c =? 8239) || (c =? 8287)
   || (c =? 12288))%N.

(** [len(s.split())]: the number of maximal runs of non-space characters.
    [inside] tells whether the previous character was in a run. *)
Fixpoint count_words_from (inside : bool) (s : pystr) : nat :=
  match s with
  | [] => 0
  | c :: s' =>
      if is_space c then count_words_from false s'
      else if inside then count_words_from true s'
      else S (count_words_from true s')
  end.

Definition count_words (s : pystr) : nat := count_words_from false s.

(** The three [apply] calls of [get_stats] on one line. *)
Definition count_row (r : Row pystr) : Counts :=
  mkCounts (count_words (row_texte r))
           (count_char DOT (row_texte r))
           (List.length (row_texte r)).

(** [Series.value_counts()]: one count per distinct value, first seen
    first, then sorted by decreasing count, ties keeping their order. *)
Fixpoint bump (s : pystr) (acc : list (pystr * nat)) : list (pystr * nat) :=
  match acc with
  | [] => [(s, 1)]
  | (k, n) :: acc' =>
      if str_eqb s k then (k, S n) :: acc' else (k, n) :: bump s acc'
  end.

Definition tally (l : list pystr) : list (pystr * nat) :=
  fold_left (fun acc s => bump s acc) l [].

Fixpoint insert_desc (x : pystr * nat) (l : list (pystr * nat))
  : list (pystr * nat) :=
  match l with
  | [] => [x]
  | y :: l' => if snd y <=? snd x then x :: l else y :: insert_desc x l'
  end.

Definition sort_desc (l : list (pystr * nat)) : list (pystr * nat) :=
  fold_right insert_desc [] l.

Definition value_counts (l : list pystr) : list (pystr * nat) :=
  sort_desc (tally l).

(** [Series.mean()] of a column of counts, before the [:.1f] formatting. *)
Definition mean (l : list nat) : Q :=
  Qmake (Z.of_nat (fold_right Nat.add 0 l)) (Pos.of_nat (List.length l)).

Definition min_list (l : list nat) : nat :=
  match l with
  | [] => 0
  | x :: l' => fold_left Nat.min l' x
  end.

Definition max_list (l : list nat) : nat := fold_left Nat.max l 0.

(** What [get_stats] prints, in print order. *)
Record StatsReport := mkStatsReport {
  total : nat;
  par_source : list (pystr * nat);
  moyenne_mots : Q;
  moyenne_phrases : Q;
  moyenne_chars : Q;
  min_mots : nat;
  max_mots : nat
}.

(** [get_stats]: the store afterwards and what is printed ([None] for
    the early return on an empty table). *)
Definition get_stats (c : Corpus pystr) : Corpus pystr * option StatsReport :=
  if df_empty (df c) then (c, None)
  else
    let rows := base_rows (df c) in
    let counted := map (fun r => (r, count_row r)) rows in
    let mots := map (fun rk => nb_mots (snd rk)) counted in
    let phrases := map (fun rk => nb_phrases (snd rk)) counted in
    let chars := map (fun rk => nb_chars (snd rk)) counted in
    (mkCorpus (docs c) (DfStats counted),
     Some (mkStatsReport (List.length rows)
             (value_counts (map (@row_source pystr) rows))
             (mean mots) (mean phrases) (mean chars)
             (min_list mots) (max_list mots))).

(** [str(n)] for a non-negative integer. *)
Definition str_int (n : nat) : pystr :=
  lit (NilZero.string_of_uint (Nat.to_uint n)).

(** The records [to_csv] writes, one per line of the table: the three
    columns, then the added ones if any. *)
Definition record_of (x : Row pystr * list pystr) : list pystr :=
  str_int (row_id (fst x)) :: row_texte (fst x) :: row_source (fst x) :: snd x.

Definition render_counts (k : Counts) : list pystr :=
  [str_int (nb_mots k); str_int (nb_phrases k); str_int (nb_chars k)].

(** The lines of the table, each with the fields of its added columns. *)
Definition items (d : DataFrame pystr) : list (Row pystr * list pystr) :=
  match d with
  | DfEmpty => []
  | DfBase rows => map (fun r => (r, [])) rows
  | DfStats rows => map (fun rk => (fst rk, render_counts (snd rk))) rows
  end.

Definition render (d : DataFrame pystr) : list (list pystr) :=
  map record_of (items d).

(** The distinct values of a column, first seen first, and the number of
    lines holding a value: the terms the per-source counts are stated in. *)
Definition first_seen (l : list pystr) : list pystr :=
  fold_left (fun acc s => if existsb (str_eqb s) acc then acc else acc ++ [s]) l [].

Definition occurrences (s : pystr) (l : list pystr) : nat :=
  List.length (filter (str_eqb s) l).

(** The count recorded for a value in a list of counts. *)
Fixpoint count_of (acc : list (pystr * nat)) (s : pystr) : nat :=
  match acc with
  | [] => 0
  | (k, n) :: acc' => if str_eqb s k then n else count_of acc' s
  end.

(** Decreasing counts. *)
Definition desc (a b : pystr * nat) : Prop := snd b <= snd a.

(** The ['source'] column. *)
Definition sources (d : DataFrame pystr) : list pystr :=
  map (@row_source pystr) (base_rows d).

(** The store of the scenario of the spec: one text of 18 characters, one
    of 2. *)
Definition scenario_store : Corpus pystr :=
  new [ mkDoc (lit "Hello world. Nice.") (lit "reddit") [];
        mkDoc (lit "Hi") (lit "arxiv") [] ].

(** A store of one short reddit document. *)
Definition one_doc_store : Corpus pystr :=
  new [mkDoc (lit "Hi there.") (lit "reddit") []].

Section Persistence.

Variable quote_cr : bool.
Variable is_number : pystr -> bool.

(** [save]: the file system afterwards, and whether the call returned or
    raised.  A path that cannot be opened raises before anything is
    written; an encoding failure leaves the lines written so far. *)
Definition save (filename : pystr) (c : Corpus pystr) (fs : Pandas.FS)
  : Pandas.FS * result unit :=
  if df_empty (df c) then (fs, Ok tt)
  else if Pandas.can_open fs filename then
    let (text, done) :=
      Pandas.to_csv quote_cr (df_columns (df c)) (render (df c)) in
    (Pandas.write_file fs filename text,
     if done then Ok tt else Raise UnicodeEncodeError)
  else (fs, Raise OSError).

(** Body of the loop of [load]. *)
Definition load_doc (cols : list pystr) (record : list Pandas.cell)
  : result (Doc Pandas.cell) :=
  bind (Pandas.row_get cols record (lit "texte")) (fun t =>
  bind (Pandas.row_get cols record (lit "source")) (fun s =>
  Ok (mkDoc t s []))).

(** [Corpus.load] *)
Definition load (fs : Pandas.FS) (filename : pystr)
  : result (Corpus Pandas.cell) :=
  bind (Pandas.read_csv is_number fs filename) (fun d =>
  bind (mapM (load_doc (Pandas.columns d)) (Pandas.records d)) (fun l =>
  Ok (new l))).

(** A string that is written and read back as itself: it can be
    encoded, holds no unquoted carriage return, and is not read as a
    missing value, a number or a boolean. *)
Definition plain (w : pystr) : bool :=
  Pandas.writable quote_cr w
  && negb (Pandas.is_na w)
  && negb (is_number w)
  && negb (Pandas.is_bool w).



End Persistence.

(** Sample data: a file system without file where every path can be
    written, one where none can, a file with a header line that lacks
    the ['texte'] column and no data line, and a recogniser of unsigned
    integers standing for the numeric literals. *)
Definition no_files : Pandas.FS := Pandas.mkFS (fun _ => None) (fun _ => true).

Definition no_directory : Pandas.FS :=
  Pandas.mkFS (fun _ => None) (fun _ => false).

(** A store whose second text holds a surrogate. *)
Definition surrogate_store : Corpus pystr :=
  new [ mkDoc (lit "fine") (lit "reddit") [];
        mkDoc (lit "bad" ++ [55296%N]) (lit "arxiv") [];
        mkDoc (lit "never written") (lit "arxiv") [] ].

Definition header_only_file : pystr := lit "id" ++ TAB :: lit "source" ++ [NL].

(** A file without ['id'] column: a header line and one data line. *)
Definition two_column_file : pystr :=
  lit "texte" ++ TAB :: lit "source" ++ NL :: lit "hello" ++ TAB :: lit "reddit" ++ [NL].

Definition mixed_case_store : Corpus pystr :=
  new [ mkDoc (lit "tRue") (lit "reddit") [] ].


Definition summaryless_store : Corpus pystr :=
  new [ mkDoc empty (lit "arxiv") [] ].

Definition digits_only (w : pystr) : bool :=
  match w with
  | [] => false
  | _ :: _ => forallb (fun c => (48 <=? c)%N && (c <=? 57)%N) w
  end.

(** [l[:n]]: the first [n] items, or all but the last [-n] when [n] is
    negative. *)
Definition slice_to {A} (n : Z) (l : list A) : list A :=
  if (0 <=? n)%Z then firstn (Z.to_nat n) l
  else firstn (List.length l - Z.to_nat (- n)) l.

(** What [show_sample] prints about one line: the id, the source and the
    text cut to 200 characters, followed by three dots. *)
Record SampleLine := mkSampleLine {
  shown_id : nat;
  shown_source : pystr;
  shown_texte : pystr
}.

Definition sample_line (r : Row pystr) : SampleLine :=
  mkSampleLine (row_id r) (row_source r)
               (slice_to 200 (row_texte r) ++ lit "...").

(** [show_sample]: [None] for the early return on an empty table, else
    the number of documents announced, [min(n, len(df))], and the lines
    of [df.head(n)]. *)
Definition show_sample (n : Z) (c : Corpus pystr)
  : option (Z * list SampleLine) :=
  if df_empty (df c) then None
  else Some (Z.min n (Z.of_nat (df_len (df c))),
             map sample_line (slice_to n (base_rows (df c)))).

(** [repr(corpus)] *)
Definition repr (c : Corpus pystr) : pystr :=
  lit "Corpus(" ++ str_int (len c) ++ lit " documents)".

End Store.

(** * Properties *)

Module PyFacts.
Import Py.

Lemma str_eqb_eq (a b : pystr) : str_eqb a b = true <-> a = b.
Proof.
  revert b. induction a as [|x a IH]; intros [|y b]; simpl; split;
    try discriminate; try reflexivity.
  - intros H. apply andb_prop in H as [Hx Hab].
    apply N.eqb_eq in Hx. apply IH in Hab. now subst.
  - intros H. injection H as -> ->. rewrite N.eqb_refl. simpl. now apply IH.
Qed.

Lemma str_eqb_refl (a : pystr) : str_eqb a a = true.
Proof. now apply str_eqb_eq. Qed.

Lemma str_eqb_neq (a b : pystr) : str_eqb a b = false <-> a <> b.
Proof.
  split.
  - intros H E. apply str_eqb_eq in E. congruence.
  - intros H. destruct (str_eqb a b) eqn:E; [|reflexivity].
    apply str_eqb_eq in E. contradiction.
Qed.

Lemma existsb_str_in (s : pystr) (l : list pystr) :
  existsb (str_eqb s) l = true <-> In s l.
Proof.
  rewrite existsb_exists. split.
  - intros (x & Hx & E). apply str_eqb_eq in E. now subst.
  - intros H. exists s. split; [assumption | apply str_eqb_refl].
Qed.

Lemma existsb_str_not_in (s : pystr) (l : list pystr) :
  existsb (str_eqb s) l = false <-> ~ In s l.
Proof.
  rewrite <- existsb_str_in. destruct (existsb (str_eqb s) l); split; congruence.
Qed.

End PyFacts.

Module AcquisitionFacts.
Import Py Acquisition PyFacts.

Lemma count_char_replace_nl (s : pystr) :
  count_char NL (replace_char NL SPACE s) = 0.
Proof.
  unfold count_char, replace_char.
  induction s as [|c s IH]; [reflexivity|].
  cbn [map filter].
  destruct (N.eqb_spec c NL) as [->|Hc].
  - change (N.eqb NL SPACE) with false. exact IH.
  - rewrite N.eqb_sym, (proj2 (N.eqb_neq c NL) Hc). exact IH.
Qed.

Lemma replace_char_length (old new : char) (s : pystr) :
  List.length (replace_char old new s) = List.length s.
Proof. apply length_map. Qed.

Lemma mapM_ok_forall {A B} (f : A -> result B) (P : B -> Prop) (l : list A) (ys : list B) :
  (forall x y, f x = Ok y -> P y) -> mapM f l = Ok ys -> Forall P ys.
Proof.
  intros Hf. revert ys. induction l as [|x l IH]; simpl; intros ys H.
  - injection H as <-. constructor.
  - bind_ok H. bind_ok H. injection H as <-.
    constructor; [now apply (Hf x) | now apply IH].
Qed.

Lemma mapM_first_raise {A B} (f : A -> result B) (pre post : list A) (x : A)
      (ys : list B) (e : exn) :
  mapM f pre = Ok ys -> f x = Raise e -> mapM f (pre ++ x :: post) = Raise e.
Proof.
  revert ys. induction pre as [|p pre IH]; simpl; intros ys Hpre Hx.
  - now rewrite Hx.
  - bind_ok Hpre. bind_ok Hpre. simpl. now rewrite (IH _ eq_refl Hx).
Qed.

Lemma reddit_doc_text (sub : Submission) (d : Doc pystr) :
  reddit_doc sub = Ok d ->
  exists t b,
    title sub = Some (VStr t) /\ selftext sub = Some (VStr b) /\
    texte d = replace_char NL SPACE (t ++ SPACE :: b).
Proof.
  unfold reddit_doc. intros H.
  destruct (title sub) as [t|]; simpl in H; [|discriminate].
  destruct t as [|t| | |]; simpl in H; try discriminate.
  destruct (selftext sub) as [b|]; simpl in H; [|discriminate].
  destruct b as [|b| | |]; simpl in H; try discriminate.
  injection H as <-. exists t, b. simpl.
  repeat split. now rewrite <- app_assoc.
Qed.

Lemma arxiv_doc_text (e : pyval) (d : Doc pystr) :
  arxiv_doc e = Ok d ->
  exists s,
    get e (lit "summary") (VStr empty) = Ok (VStr s) /\
    texte d = replace_char NL SPACE s.
Proof.
  unfold arxiv_doc. intros H.
  bind_ok H. destruct a as [|s| | |]; simpl in H; try discriminate.
  repeat bind_ok H. injection H as <-. exists s. simpl. auto.
Qed.



Lemma reddit_doc_absent (sub : Submission) :
  reddit_text_present sub = false ->
  exists e, reddit_doc sub = Raise e /\ (e = AttributeError \/ e = TypeError).
Proof.
  unfold reddit_text_present, reddit_doc. intros H.
  destruct (title sub) as [[|t| | |]|]; simpl; eauto.
  destruct (selftext sub) as [[|b| | |]|]; simpl; eauto; discriminate.
Qed.

Lemma arxiv_doc_absent (entry : pyval) :
  arxiv_text_present entry = false -> arxiv_doc entry = Raise AttributeError.
Proof.
  unfold arxiv_text_present, arxiv_doc. intros H.
  destruct entry as [| | | |d]; simpl; try reflexivity.
  destruct (lookup (lit "summary") d) as [[| | | |]|]; simpl;
    try reflexivity; discriminate.
Qed.

Lemma get_arxiv_docs_entries (kv fkv : list (pystr * pyval)) (es : pyval) :
  lookup (lit "feed") kv = Some (VDict fkv) ->
  lookup (lit "entry") fkv = Some es ->
  get_arxiv_docs (VDict kv) = mapM arxiv_doc (as_list es).
Proof.
  intros Hf He. unfold get_arxiv_docs, getitem, contains.
  rewrite Hf. cbn [bind]. rewrite He. cbn [bind]. reflexivity.
Qed.

(** C8 (missing text field).  A submission whose title or body attribute
    is absent or is not a string makes [reddit_doc] raise [AttributeError]
    or [TypeError]; an entry that is not a dict, or whose summary is there
    but is not a string, makes [arxiv_doc] raise [AttributeError].  With
    the records before it normalized, that exception is what the source's
    function raises, and what [get_docs] raises to its caller. *)
Theorem missing_text_field_raises :
  (forall pre sub post articles docs_pre,
     get_reddit_docs pre = Ok docs_pre ->
     reddit_text_present sub = false ->
     exists e,
       reddit_doc sub = Raise e /\
       (e = AttributeError \/ e = TypeError) /\
       get_reddit_docs (pre ++ sub :: post) = Raise e /\
       get_docs (pre ++ sub :: post) articles = Raise e) /\
  (forall results docs_reddit kv fkv es pre entry post docs_pre,
     get_reddit_docs results = Ok docs_reddit ->
     lookup (lit "feed") kv = Some (VDict fkv) ->
     lookup (lit "entry") fkv = Some es ->
     as_list es = pre ++ entry :: post ->
     mapM arxiv_doc pre = Ok docs_pre ->
     arxiv_text_present entry = false ->
     arxiv_doc entry = Raise AttributeError /\
     get_arxiv_docs (VDict kv) = Raise AttributeError /\
     get_docs results (VDict kv) = Raise AttributeError).
Proof.
  split.
  - intros pre sub post articles docs_pre Hpre Hsub.
    destruct (reddit_doc_absent sub Hsub) as (e & He & Hkind).
    exists e. repeat split; try assumption.
    + unfold get_reddit_docs in *. eapply mapM_first_raise; eassumption.
    + unfold get_docs, get_reddit_docs in *.
      now rewrite (@mapM_first_raise _ _ reddit_doc pre post sub docs_pre e Hpre He).
  - intros results docs_reddit kv fkv es pre entry post docs_pre
           Hr Hf He Hes Hpre Hentry.
    pose proof (arxiv_doc_absent entry Hentry) as Hd.
    assert (Ha : get_arxiv_docs (VDict kv) = Raise AttributeError).
    { rewrite (get_arxiv_docs_entries kv Hf He), Hes.
      eapply mapM_first_raise; eassumption. }
    repeat split; try assumption.
    unfold get_docs. rewrite Hr. simpl. now rewrite Ha.
Qed.

(** A submission without body, and an entry whose summary is [None]. *)
Lemma missing_text_field_raises_witness :
  get_docs [sample_submission; bodyless_submission] empty_feed = Raise AttributeError /\
  get_docs [sample_submission] (feed_of (VList [sample_entry; null_summary_entry]))
  = Raise AttributeError.
Proof.
  split.
  - destruct (proj1 missing_text_field_raises
                [sample_submission] bodyless_submission [] empty_feed _
                eq_refl eq_refl) as (e & He & _ & _ & Hd).
    simpl in Hd. rewrite Hd. f_equal.
    change (reddit_doc bodyless_submission) with (@Raise (Doc pystr) AttributeError) in He.
    now injection He.
  - exact (proj2 (proj2 (proj2 missing_text_field_raises
             [sample_submission] _
             [(lit "feed",
               VDict [(lit "title", VStr (lit "ArXiv Query"));
                      (lit "entry", VList [sample_entry; null_summary_entry])])]
             [(lit "title", VStr (lit "ArXiv Query"));
              (lit "entry", VList [sample_entry; null_summary_entry])]
             (VList [sample_entry; null_summary_entry])
             [sample_entry] null_summary_entry [] _
             eq_refl eq_refl eq_refl eq_refl eq_refl eq_refl))).
Defined.

Lemma arxiv_doc_author (kv : list (pystr * pyval)) (doc : Doc pystr) :
  arxiv_doc (VDict kv) = Ok doc ->
  exists a,
    resolve_author (VDict kv) = Ok a /\
    lookup (lit "auteur") (extra doc) = Some a.
Proof.
  unfold arxiv_doc. intros H.
  bind_ok H. bind_ok H. bind_ok H. exists a1. split; [reflexivity|].
  repeat bind_ok H. injection H as <-. reflexivity.
Qed.

(** C9 (author of an entry).  In the document of an arxiv entry, the
    author is the name of the author object when the entry has a single
    one, the name of the first author object when it has a list of them,
    and the string Unknown when the entry has no author key. *)
Theorem author_resolution :
  forall kv doc,
    arxiv_doc (VDict kv) = Ok doc ->
    (forall obj name,
       lookup (lit "author") kv = Some (VDict obj) ->
       lookup (lit "name") obj = Some name ->
       lookup (lit "auteur") (extra doc) = Some name) /\
    (forall obj others name,
       lookup (lit "author") kv = Some (VList (VDict obj :: others)) ->
       lookup (lit "name") obj = Some name ->
       lookup (lit "auteur") (extra doc) = Some name) /\
    (lookup (lit "author") kv = None ->
     lookup (lit "auteur") (extra doc) = Some (VStr (lit "Unknown"))).
Proof.
  intros kv doc H.
  destruct (arxiv_doc_author kv H) as (a & Ha & Hdoc). rewrite Hdoc.
  unfold resolve_author, contains, getitem, get in Ha.
  repeat split.
  - intros obj name Hau Hname. rewrite Hau in Ha. cbn [bind] in Ha.
    rewrite Hname in Ha. now injection Ha as <-.
  - intros obj others name Hau Hname. rewrite Hau in Ha. cbn [bind] in Ha.
    rewrite Hname in Ha. now injection Ha as <-.
  - intros Hau. rewrite Hau in Ha. cbn [bind] in Ha. now injection Ha as <-.
Qed.

(** An entry with two authors. *)
Lemma author_resolution_witness :
  exists doc,
    arxiv_doc sample_entry = Ok doc /\
    lookup (lit "auteur") (extra doc) = Some (VStr (lit "Ada")).
Proof.
  destruct (arxiv_doc sample_entry) as [doc|e] eqn:E; [|discriminate E].
  exists doc. split; [reflexivity|].
  exact (proj1 (proj2 (@author_resolution _ doc E))
           [(lit "name", VStr (lit "Ada"))]
           [VDict [(lit "name", VStr (lit "Bob"))]]
           (VStr (lit "Ada")) eq_refl eq_refl).
Defined.

(** C10 (no result).  When the feed has no entry key, [get_arxiv_docs]
    returns the empty list without raising, and [get_docs] returns the
    reddit documents alone. *)
Theorem no_entry_key_gives_no_document :
  forall kv fkv,
    lookup (lit "feed") kv = Some (VDict fkv) ->
    lookup (lit "entry") fkv = None ->
    get_arxiv_docs (VDict kv) = Ok [] /\
    (forall results docs_reddit,
       get_reddit_docs results = Ok docs_reddit ->
       get_docs results (VDict kv) = Ok docs_reddit).
Proof.
  intros kv fkv Hf He.
  assert (H : get_arxiv_docs (VDict kv) = Ok []).
  { unfold get_arxiv_docs, getitem, contains.
    rewrite Hf. cbn [bind]. rewrite He. reflexivity. }
  split; [exact H|].
  intros results docs_reddit Hr. unfold get_docs.
  rewrite Hr, H. simpl. now rewrite app_nil_r.
Qed.

(** The feed of a query without result. *)
Lemma no_entry_key_gives_no_document_witness :
  get_arxiv_docs empty_feed = Ok [].
Proof.
  exact (proj1 (@no_entry_key_gives_no_document
                  [(lit "feed", VDict [(lit "title", VStr (lit "ArXiv Query"))])]
                  [(lit "title", VStr (lit "ArXiv Query"))]
                  eq_refl eq_refl)).
Defined.

End AcquisitionFacts.

Module StoreFacts.
Import Py Store PyFacts.

Section Ids.
Context {T : Type}.

Lemma rows_from_ids (l : list (Doc T)) (i : nat) :
  map (@row_id T) (rows_from i l) = seq i (List.length l).
Proof.
  revert i. induction l as [|d l IH]; intros i; simpl.
  - reflexivity.
  - now rewrite IH.
Qed.

Lemma rows_from_length (l : list (Doc T)) (i : nat) :
  List.length (rows_from i l) = List.length l.
Proof.
  revert i. induction l as [|d l IH]; intros i; simpl; [reflexivity|].
  now rewrite IH.
Qed.

Lemma renumber_from_ids (rows : list (Row T)) (i : nat) :
  map (@row_id T) (renumber_from i rows) = seq i (List.length rows).
Proof.
  revert i. induction rows as [|r rows IH]; intros i; simpl.
  - reflexivity.
  - now rewrite IH.
Qed.

Lemma renumber_from_length (rows : list (Row T)) (i : nat) :
  List.length (renumber_from i rows) = List.length rows.
Proof.
  revert i. induction rows as [|r rows IH]; intros i; simpl; [reflexivity|].
  now rewrite IH.
Qed.

Lemma renumber_stats_ids (rows : list (Row T * Counts)) (i : nat) :
  map (@row_id T) (map fst (renumber_stats_from i rows)) = seq i (List.length rows).
Proof.
  revert i. induction rows as [|[r k] rows IH]; intros i; simpl.
  - reflexivity.
  - now rewrite IH.
Qed.

Lemma renumber_stats_length (rows : list (Row T * Counts)) (i : nat) :
  List.length (renumber_stats_from i rows) = List.length rows.
Proof.
  revert i. induction rows as [|[r k] rows IH]; intros i; simpl; [reflexivity|].
  now rewrite IH.
Qed.

Lemma new_ids (l : list (Doc T)) :
  ids (df (new l)) = seq 0 (len (new l)).
Proof.
  unfold new, len, ids, df_len. simpl.
  destruct l as [|d l]; [reflexivity|].
  unfold _create_dataframe, base_rows.
  now rewrite rows_from_ids, rows_from_length.
Qed.

End Ids.

Lemma clean_ids (min_length : Z) (c : Corpus pystr) :
  ids (df (fst (clean min_length c))) = seq 0 (len (fst (clean min_length c))).
Proof.
  unfold clean, len, ids, df_len.
  destruct (df_empty (df c)) eqn:E.
  - simpl. unfold df_empty in E.
    destruct (base_rows (df c)); [reflexivity | discriminate].
  - simpl. destruct (df c) as [|rows|rows]; simpl.
    + reflexivity.
    + now rewrite renumber_from_ids, renumber_from_length.
    + now rewrite renumber_stats_ids, length_map, renumber_stats_length.
Qed.

Lemma clean_nonempty (m : Z) (c : Corpus pystr) :
  df_empty (df c) = false ->
  fst (clean m c) = mkCorpus (docs c) (filter_renumber m (df c)).
Proof. intros E. unfold clean. now rewrite E. Qed.

Lemma clean_empty (m : Z) (c : Corpus pystr) :
  df_empty (df c) = true -> clean m c = (c, None).
Proof. intros E. unfold clean. now rewrite E. Qed.


(** C2 (dense ids).  After [Corpus(docs)] and after [clean], the ['id']
    column is exactly 0, 1, ..., n-1 in line order, n being the number of
    lines of the table; this holds for every document list, every
    [min_length] and every table [clean] is called on. *)
Theorem dense_ids :
  forall (T : Type) (l : list (Doc T)) (min_length : Z) (c : Corpus pystr),
    ids (df (new l)) = seq 0 (len (new l)) /\
    ids (df (fst (clean min_length c))) = seq 0 (len (fst (clean min_length c))).
Proof.
  intros T l min_length c. split.
  - apply new_ids.
  - apply clean_ids.
Qed.

(** *** Cleaning *)

Lemma text_source_renumber (rows : list (Row pystr)) (i : nat) :
  map (fun r => (row_texte r, row_source r)) (renumber_from i rows) =
  map (fun r => (row_texte r, row_source r)) rows.
Proof.
  revert i. induction rows as [|r rows IH]; intros i; simpl; [reflexivity|].
  now rewrite IH.
Qed.

Lemma text_source_renumber_stats (rows : list (Row pystr * Counts)) (i : nat) :
  map (fun r => (row_texte r, row_source r)) (map fst (renumber_stats_from i rows)) =
  map (fun r => (row_texte r, row_source r)) (map fst rows).
Proof.
  revert i. induction rows as [|[r k] rows IH]; intros i; simpl; [reflexivity|].
  now rewrite IH.
Qed.

Lemma text_source_filter (m : Z) (rows : list (Row pystr)) :
  map (fun r => (row_texte r, row_source r)) (filter (longer_than m) rows) =
  filter (kept m) (map (fun r => (row_texte r, row_source r)) rows).
Proof.
  induction rows as [|r rows IH]; simpl; [reflexivity|].
  unfold longer_than at 1, kept at 1. simpl.
  destruct (m <? _)%Z; simpl; now rewrite IH.
Qed.

Lemma text_source_filter_stats (m : Z) (rows : list (Row pystr * Counts)) :
  map (fun r => (row_texte r, row_source r))
      (map fst (filter (fun rk => longer_than m (fst rk)) rows)) =
  filter (kept m) (map (fun r => (row_texte r, row_source r)) (map fst rows)).
Proof.
  induction rows as [|[r k] rows IH]; simpl; [reflexivity|].
  unfold longer_than at 1, kept at 1. simpl.
  destruct (m <? _)%Z; simpl; now rewrite IH.
Qed.

Lemma clean_text_source (m : Z) (c : Corpus pystr) :
  text_source (df (fst (clean m c))) = filter (kept m) (text_source (df c)).
Proof.
  unfold clean, text_source.
  destruct (df_empty (df c)) eqn:E; simpl.
  - unfold df_empty in E.
    destruct (base_rows (df c)); [reflexivity | discriminate].
  - destruct (df c) as [|rows|rows]; simpl.
    + reflexivity.
    + now rewrite text_source_renumber, text_source_filter.
    + now rewrite text_source_renumber_stats, text_source_filter_stats.
Qed.

Lemma filter_renumber_all (m : Z) (rows : list (Row pystr)) (i : nat) :
  forallb (longer_than m) rows = true ->
  filter (longer_than m) (renumber_from i rows) = renumber_from i rows.
Proof.
  revert i. induction rows as [|r rows IH]; intros i H; simpl; [reflexivity|].
  simpl in H. apply andb_prop in H as [Hr Hrows].
  unfold longer_than at 1. simpl. unfold longer_than in Hr. rewrite Hr.
  now rewrite IH.
Qed.

Lemma filter_renumber_stats_all (m : Z) (rows : list (Row pystr * Counts)) (i : nat) :
  forallb (fun rk => longer_than m (fst rk)) rows = true ->
  filter (fun rk => longer_than m (fst rk)) (renumber_stats_from i rows) =
  renumber_stats_from i rows.
Proof.
  revert i. induction rows as [|[r k] rows IH]; intros i H; simpl; [reflexivity|].
  simpl in H. apply andb_prop in H as [Hr Hrows].
  unfold longer_than at 1. simpl. unfold longer_than in Hr. rewrite Hr.
  now rewrite IH.
Qed.

Lemma renumber_twice (rows : list (Row pystr)) (i : nat) :
  renumber_from i (renumber_from i rows) = renumber_from i rows.
Proof.
  revert i. induction rows as [|r rows IH]; intros i; simpl; [reflexivity|].
  now rewrite IH.
Qed.

Lemma renumber_stats_twice (rows : list (Row pystr * Counts)) (i : nat) :
  renumber_stats_from i (renumber_stats_from i rows) = renumber_stats_from i rows.
Proof.
  revert i. induction rows as [|[r k] rows IH]; intros i; simpl; [reflexivity|].
  now rewrite IH.
Qed.

Lemma forallb_filter {A} (f : A -> bool) (l : list A) :
  forallb f (filter f l) = true.
Proof.
  induction l as [|x l IH]; simpl; [reflexivity|].
  destruct (f x) eqn:E; simpl; [now rewrite E|assumption].
Qed.

Lemma filter_renumber_idempotent (m : Z) (d : DataFrame pystr) :
  filter_renumber m (filter_renumber m d) = filter_renumber m d.
Proof.
  destruct d as [|rows|rows]; simpl.
  - reflexivity.
  - rewrite filter_renumber_all by apply forallb_filter.
    now rewrite renumber_twice.
  - rewrite filter_renumber_stats_all
      by apply (forallb_filter (fun rk => longer_than m (fst rk))).
    now rewrite renumber_stats_twice.
Qed.

Lemma clean_idempotent (m : Z) (c : Corpus pystr) :
  fst (clean m (fst (clean m c))) = fst (clean m c).
Proof.
  destruct (df_empty (df c)) eqn:E.
  - rewrite (clean_empty m c E). simpl. now rewrite (clean_empty m c E).
  - rewrite (clean_nonempty m c E).
    destruct (df_empty (df (mkCorpus (docs c) (filter_renumber m (df c))))) eqn:E'.
    + now rewrite (clean_empty m _ E').
    + rewrite (clean_nonempty m _ E'). simpl.
      now rewrite filter_renumber_idempotent.
Qed.

Lemma clean_len_le (m : Z) (c : Corpus pystr) :
  len (fst (clean m c)) <= len c.
Proof.
  unfold len, df_len.
  assert (H : List.length (text_source (df (fst (clean m c))))
              <= List.length (text_source (df c))).
  { rewrite clean_text_source. apply filter_length_le. }
  unfold text_source in H. now rewrite !length_map in H.
Qed.

Lemma clean_report_removed (m : Z) (c : Corpus pystr) (r : CleanReport) :
  snd (clean m c) = Some r ->
  nb_avant r = len c /\ nb_apres r = len (fst (clean m c)) /\
  nb_supprimes r = len c - len (fst (clean m c)).
Proof.
  unfold clean. destruct (df_empty (df c)); simpl; [discriminate|].
  intros H. injection H as <-. simpl. unfold len. simpl. auto.
Qed.

(** C3 (cleaning).  [clean] keeps exactly the lines whose text is
    strictly longer than [min_length] characters, in their order, and
    removes the others; the table does not grow; a second [clean] with
    the same [min_length] changes nothing and reports zero removals. *)
Theorem clean_filters_and_is_idempotent :
  forall (min_length : Z) (c : Corpus pystr),
    let c' := fst (clean min_length c) in
    text_source (df c') = filter (kept min_length) (text_source (df c)) /\
    len c' <= len c /\
    fst (clean min_length c') = c' /\
    (forall r, snd (clean min_length c') = Some r -> nb_supprimes r = 0).
Proof.
  intros m c c'. subst c'. repeat split.
  - apply clean_text_source.
  - apply clean_len_le.
  - apply clean_idempotent.
  - intros r H. apply clean_report_removed in H as (_ & _ & H).
    rewrite H, clean_idempotent. lia.
Qed.

(** The scenario of the spec: after [clean] with 5 the long text alone is
    left, and a second [clean] removes nothing. *)
Lemma clean_filters_and_is_idempotent_witness :
  text_source (df (fst (clean 5 scenario_store))) =
    [(lit "Hello world. Nice.", lit "reddit")] /\
  ids (df (fst (clean 5 scenario_store))) = [0] /\
  exists r,
    snd (clean 5 (fst (clean 5 scenario_store))) = Some r /\ nb_supprimes r = 0.
Proof.
  destruct (clean_filters_and_is_idempotent 5 scenario_store) as (H1 & _ & _ & H4).
  split; [exact H1|]. split; [reflexivity|].
  eexists. split; [reflexivity|]. apply H4. reflexivity.
Defined.

(** *** Statistics *)

(** C5, as the spec states it, fails: on a store of one document
    [get_stats] changes the table, which gains three columns. *)
Lemma get_stats_changes_table :
  fst (get_stats one_doc_store) <> one_doc_store /\
  df_columns (df (fst (get_stats one_doc_store))) <>
  df_columns (df one_doc_store).
Proof. split; intros H; discriminate H. Qed.

(** C5 (amended).  [get_stats] leaves the ['id'], ['texte'], ['source']
    values of every line, the number and order of the lines and the
    document list as they were; called on an empty table it changes
    nothing at all, and called on a non-empty table it leaves the table
    with the three added columns ['nb_mots'], ['nb_phrases'],
    ['nb_chars']. *)
Theorem get_stats_keeps_entries :
  forall c : Corpus pystr,
    let c' := fst (get_stats c) in
    base_rows (df c') = base_rows (df c) /\
    docs c' = docs c /\
    (if df_empty (df c) then c' = c
     else df_columns (df c') =
          [lit "id"; lit "texte"; lit "source";
           lit "nb_mots"; lit "nb_phrases"; lit "nb_chars"]).
Proof.
  intros c c'. subst c'. unfold get_stats.
  destruct (df_empty (df c)) eqn:E; simpl.
  - auto.
  - repeat split. rewrite map_map. simpl. apply map_id.
Qed.

(** keys of the tally *)
Lemma bump_keys (x : pystr) (acc : list (pystr * nat)) :
  map fst (bump x acc) =
  if existsb (str_eqb x) (map fst acc) then map fst acc else map fst acc ++ [x].
Proof.
  induction acc as [|[k n] acc IH]; simpl; [reflexivity|].
  destruct (str_eqb x k) eqn:E; simpl; [reflexivity|].
  rewrite IH. now destruct (existsb (str_eqb x) (map fst acc)).
Qed.

Lemma tally_keys_from (l : list pystr) (acc : list (pystr * nat)) :
  map fst (fold_left (fun a s => bump s a) l acc) =
  fold_left (fun a s => if existsb (str_eqb s) a then a else a ++ [s]) l (map fst acc).
Proof.
  revert acc. induction l as [|x l IH]; intros acc; simpl; [reflexivity|].
  now rewrite IH, bump_keys.
Qed.

Lemma tally_keys (l : list pystr) : map fst (tally l) = first_seen l.
Proof. apply tally_keys_from. Qed.

Lemma first_seen_from_nodup (l acc : list pystr) :
  NoDup acc ->
  NoDup (fold_left (fun a s => if existsb (str_eqb s) a then a else a ++ [s]) l acc).
Proof.
  revert acc. induction l as [|x l IH]; intros acc H; simpl; [assumption|].
  apply IH. destruct (existsb (str_eqb x) acc) eqn:E; [assumption|].
  apply existsb_str_not_in in E.
  apply NoDup_app; [assumption | constructor; [intros []|constructor] |].
  intros y Hy [<-|[]]. contradiction.
Qed.

Lemma first_seen_nodup (l : list pystr) : NoDup (first_seen l).
Proof. apply first_seen_from_nodup. constructor. Qed.

Lemma first_seen_from_in (l acc : list pystr) (s : pystr) :
  In s (fold_left (fun a s => if existsb (str_eqb s) a then a else a ++ [s]) l acc)
  <-> In s acc \/ In s l.
Proof.
  revert acc. induction l as [|x l IH]; intros acc; simpl; [tauto|].
  rewrite IH. destruct (existsb (str_eqb x) acc) eqn:E.
  - apply existsb_str_in in E. split; [tauto|].
    intros [H|[<-|H]]; auto.
  - rewrite in_app_iff. simpl. tauto.
Qed.

Lemma first_seen_in (l : list pystr) (s : pystr) : In s (first_seen l) <-> In s l.
Proof. unfold first_seen. rewrite first_seen_from_in. simpl. tauto. Qed.

(** counts of the tally *)
Lemma count_of_bump (x : pystr) (acc : list (pystr * nat)) (s : pystr) :
  count_of (bump x acc) s = count_of acc s + (if str_eqb s x then 1 else 0).
Proof.
  induction acc as [|[k n] acc IH]; simpl.
  - now destruct (str_eqb s x).
  - destruct (str_eqb x k) eqn:E; simpl.
    + apply str_eqb_eq in E. subst k.
      destruct (str_eqb s x); lia.
    + destruct (str_eqb s k) eqn:Es.
      * apply str_eqb_eq in Es. subst k.
        assert (H : str_eqb s x = false).
        { apply str_eqb_neq. apply str_eqb_neq in E. congruence. }
        rewrite H. lia.
      * apply IH.
Qed.

Lemma occurrences_cons (s x : pystr) (l : list pystr) :
  occurrences s (x :: l) = (if str_eqb s x then 1 else 0) + occurrences s l.
Proof. unfold occurrences. simpl. now destruct (str_eqb s x). Qed.

Lemma count_of_tally_from (l : list pystr) (acc : list (pystr * nat)) (s : pystr) :
  count_of (fold_left (fun a x => bump x a) l acc) s = count_of acc s + occurrences s l.
Proof.
  revert acc. induction l as [|x l IH]; intros acc; simpl.
  - unfold occurrences. simpl. lia.
  - rewrite IH, count_of_bump, occurrences_cons. lia.
Qed.

Lemma count_of_tally (l : list pystr) (s : pystr) :
  count_of (tally l) s = occurrences s l.
Proof. unfold tally. now rewrite count_of_tally_from. Qed.

Lemma count_of_in (acc : list (pystr * nat)) (s : pystr) (n : nat) :
  NoDup (map fst acc) -> In (s, n) acc -> count_of acc s = n.
Proof.
  induction acc as [|[k m] acc IH]; simpl; intros Hnd Hin; [contradiction|].
  inversion Hnd as [|? ? Hk Hnd']; subst.
  destruct Hin as [E|Hin].
  - injection E as -> ->. now rewrite str_eqb_refl.
  - destruct (str_eqb s k) eqn:E.
    + apply str_eqb_eq in E. subst k. exfalso. apply Hk.
      change s with (fst (s, n)). now apply in_map.
    + now apply IH.
Qed.

Lemma tally_counts (l : list pystr) (s : pystr) (n : nat) :
  In (s, n) (tally l) -> n = occurrences s l.
Proof.
  intros H. rewrite <- count_of_tally. symmetry. apply count_of_in; [|assumption].
  rewrite tally_keys. apply first_seen_nodup.
Qed.

Lemma tally_as_map (l : list pystr) :
  tally l = map (fun s => (s, occurrences s l)) (first_seen l).
Proof.
  rewrite <- tally_keys, map_map.
  rewrite <- (map_id (tally l)) at 1.
  apply map_ext_in. intros [s n] H. simpl.
  now rewrite (tally_counts l s n H).
Qed.

Lemma bump_sum (x : pystr) (acc : list (pystr * nat)) :
  list_sum (map snd (bump x acc)) = S (list_sum (map snd acc)).
Proof.
  induction acc as [|[k n] acc IH]; simpl; [reflexivity|].
  destruct (str_eqb x k); simpl; [reflexivity|]. rewrite IH. lia.
Qed.

Lemma tally_sum_from (l : list pystr) (acc : list (pystr * nat)) :
  list_sum (map snd (fold_left (fun a x => bump x a) l acc)) =
  list_sum (map snd acc) + List.length l.
Proof.
  revert acc. induction l as [|x l IH]; intros acc; simpl; [lia|].
  rewrite IH, bump_sum. lia.
Qed.

Lemma tally_sum (l : list pystr) : list_sum (map snd (tally l)) = List.length l.
Proof. unfold tally. now rewrite tally_sum_from. Qed.

(** the sort *)
Lemma insert_desc_perm (x : pystr * nat) (l : list (pystr * nat)) :
  Permutation (insert_desc x l) (x :: l).
Proof.
  induction l as [|y l IH]; simpl; [reflexivity|].
  destruct (snd y <=? snd x); [reflexivity|].
  rewrite IH. apply perm_swap.
Qed.

Lemma sort_desc_perm (l : list (pystr * nat)) : Permutation (sort_desc l) l.
Proof.
  induction l as [|x l IH]; simpl; [reflexivity|].
  unfold sort_desc in *. simpl. rewrite insert_desc_perm. now constructor.
Qed.

Lemma insert_desc_sorted (x : pystr * nat) (l : list (pystr * nat)) :
  StronglySorted desc l -> StronglySorted desc (insert_desc x l).
Proof.
  induction l as [|y l IH]; simpl; intros H.
  - constructor; constructor.
  - inversion H as [|? ? Hl Hy]; subst.
    destruct (snd y <=? snd x) eqn:E.
    + apply Nat.leb_le in E. constructor; [assumption|].
      constructor; [exact E|].
      eapply Forall_impl; [|exact Hy]. intros z Hz. unfold desc in *. lia.
    + apply Nat.leb_gt in E. constructor; [now apply IH|].
      eapply Permutation_Forall; [symmetry; apply insert_desc_perm|].
      constructor; [unfold desc; lia | assumption].
Qed.

Lemma sort_desc_sorted (l : list (pystr * nat)) : StronglySorted desc (sort_desc l).
Proof.
  induction l as [|x l IH]; simpl; [constructor|].
  now apply insert_desc_sorted.
Qed.

Lemma insert_desc_stable (n : nat) (x : pystr * nat) (l : list (pystr * nat)) :
  filter (fun p => snd p =? n) (insert_desc x l) =
  filter (fun p => snd p =? n) (x :: l).
Proof.
  induction l as [|y l IH]; simpl; [reflexivity|].
  destruct (snd y <=? snd x) eqn:E; [reflexivity|].
  apply Nat.leb_gt in E. simpl. rewrite IH. simpl.
  destruct (snd x =? n) eqn:Ex, (snd y =? n) eqn:Ey; try reflexivity.
  apply Nat.eqb_eq in Ex, Ey. lia.
Qed.

Lemma sort_desc_stable (n : nat) (l : list (pystr * nat)) :
  filter (fun p => snd p =? n) (sort_desc l) = filter (fun p => snd p =? n) l.
Proof.
  induction l as [|x l IH]; simpl; [reflexivity|].
  unfold sort_desc in *. simpl. rewrite insert_desc_stable. simpl. now rewrite IH.
Qed.

Lemma list_sum_perm (l l' : list nat) :
  Permutation l l' -> list_sum l = list_sum l'.
Proof. induction 1; simpl; lia. Qed.

Lemma value_counts_spec (l : list pystr) :
  NoDup (map fst (value_counts l)) /\
  (forall s, In s (map fst (value_counts l)) <-> In s l) /\
  (forall s n, In (s, n) (value_counts l) -> n = occurrences s l) /\
  list_sum (map snd (value_counts l)) = List.length l /\
  StronglySorted desc (value_counts l) /\
  (forall n, map fst (filter (fun p => snd p =? n) (value_counts l)) =
             filter (fun s => occurrences s l =? n) (first_seen l)).
Proof.
  unfold value_counts.
  assert (P : Permutation (sort_desc (tally l)) (tally l)) by apply sort_desc_perm.
  repeat split.
  - eapply Permutation_NoDup; [symmetry; apply Permutation_map; exact P|].
    rewrite tally_keys. apply first_seen_nodup.
  - intros H. apply first_seen_in. rewrite <- tally_keys.
    eapply Permutation_in; [apply Permutation_map; exact P | exact H].
  - intros H. apply first_seen_in in H. rewrite <- tally_keys in H.
    eapply Permutation_in; [symmetry; apply Permutation_map; exact P | exact H].
  - intros s n H. apply tally_counts.
    eapply Permutation_in; [exact P | exact H].
  - rewrite (list_sum_perm (Permutation_map snd P)). apply tally_sum.
  - apply sort_desc_sorted.
  - intros n. rewrite sort_desc_stable, tally_as_map.
    induction (first_seen l) as [|s k IH]; simpl; [reflexivity|].
    destruct (occurrences s l =? n); simpl; now rewrite IH.
Qed.

(** C6 (per-source counts).  On a non-empty store [get_stats] reports
    one count per distinct source, each the number of lines of that
    source; the counts add up to the size of the store; they are listed
    by decreasing count, sources with equal counts in first-seen order.
    Two reddit documents and one arxiv document, in any order, are
    reported as reddit: 2 then arxiv: 1. *)
Theorem stats_per_source_counts :
  (forall c : Corpus pystr,
     df_empty (df c) = false ->
     exists r,
       snd (get_stats c) = Some r /\
       total r = len c /\
       NoDup (map fst (par_source r)) /\
       (forall s, In s (map fst (par_source r)) <-> In s (sources (df c))) /\
       (forall s n, In (s, n) (par_source r) -> n = occurrences s (sources (df c))) /\
       list_sum (map snd (par_source r)) = len c /\
       StronglySorted desc (par_source r) /\
       (forall n, map fst (filter (fun p => snd p =? n) (par_source r)) =
                  filter (fun s => occurrences s (sources (df c)) =? n)
                         (first_seen (sources (df c))))) /\
  (forall t1 t2 t3 e1 e2 e3,
     let r := mkDoc t1 (lit "reddit") e1 in
     let r' := mkDoc t2 (lit "reddit") e2 in
     let a := mkDoc t3 (lit "arxiv") e3 in
     let expected := [(lit "reddit", 2); (lit "arxiv", 1)] in
     option_map par_source (snd (get_stats (new [r; r'; a]))) = Some expected /\
     option_map par_source (snd (get_stats (new [r; a; r']))) = Some expected /\
     option_map par_source (snd (get_stats (new [a; r; r']))) = Some expected).
Proof.
  split.
  - intros c E. unfold get_stats. rewrite E. simpl.
    eexists. split; [reflexivity|]. simpl.
    destruct (value_counts_spec (sources (df c))) as (H1 & H2 & H3 & H4 & H5 & H6).
    unfold sources in *. unfold len, df_len.
    rewrite length_map in H4. auto 10.
  - intros. repeat split.
Qed.

(** A non-empty store on which the statement above is exercised. *)
Lemma stats_per_source_counts_witness :
  exists r, snd (get_stats one_doc_store) = Some r /\ total r = 1.
Proof.
  destruct (proj1 stats_per_source_counts one_doc_store eq_refl)
    as (r & Hr & Ht & _).
  exists r. split; [exact Hr | exact Ht].
Defined.

End StoreFacts.

Module PandasFacts.
Import Py Pandas PyFacts.

Section Tokens.
Variable quote_cr : bool.




















End Tokens.

(** ** digits *)

Lemma nilempty_digits (d : Decimal.uint) :
  Forall is_digit (lit (NilEmpty.string_of_uint d)).
Proof.
  induction d; simpl; constructor; try assumption; unfold is_digit; simpl; lia.
Qed.

Lemma str_int_digits (n : nat) :
  Forall is_digit (Store.str_int n) /\ Store.str_int n <> [].
Proof.
  unfold Store.str_int, NilZero.string_of_uint.
  destruct (Nat.to_uint n) eqn:E.
  - split; [|discriminate]. repeat constructor; unfold is_digit; simpl; lia.
  - split; [apply nilempty_digits | discriminate].
  - split; [apply nilempty_digits | discriminate].
  - split; [apply nilempty_digits | discriminate].
  - split; [apply nilempty_digits | discriminate].
  - split; [apply nilempty_digits | discriminate].
  - split; [apply nilempty_digits | discriminate].
  - split; [apply nilempty_digits | discriminate].
  - split; [apply nilempty_digits | discriminate].
  - split; [apply nilempty_digits | discriminate].
  - split; [apply nilempty_digits | discriminate].
Qed.





End PandasFacts.

Module PersistFacts.
Import Py Pandas PyFacts Store StoreFacts PandasFacts.

(** C7, as the spec states it, fails: a file whose header lacks the
    ['texte'] column and that has no data line is loaded without error,
    as an empty store. *)
Lemma load_succeeds_without_texte_column :
  let fs := Pandas.write_file no_files (lit "corpus.csv") header_only_file in
  (exists d,
     Pandas.read_csv digits_only fs (lit "corpus.csv") = Ok d /\
     existsb (str_eqb (lit "texte")) (Pandas.columns d) = false) /\
  load digits_only fs (lit "corpus.csv") = Ok (new []).
Proof.
  split.
  - eexists. split; [vm_compute; reflexivity | reflexivity].
  - vm_compute. reflexivity.
Qed.

Lemma len_new {T} (l : list (Doc T)) : len (new l) = List.length l.
Proof.
  unfold len, new, df_len. simpl. destruct l as [|d l]; [reflexivity|].
  unfold _create_dataframe, base_rows. apply rows_from_length.
Qed.

Lemma pad_length (width : nat) (r : list pystr) :
  List.length r <= width -> List.length (Pandas.pad width r) = width.
Proof.
  intros H. unfold Pandas.pad. rewrite length_app, repeat_length. lia.
Qed.

Lemma align_rest_length (width : nat) (rs out : list (list pystr)) :
  Pandas.align_rest width rs = Ok out ->
  Forall (fun r => List.length r = width) out.
Proof.
  revert out. induction rs as [|r rs IH]; simpl; intros out H.
  - injection H as <-. constructor.
  - destruct (Nat.ltb_spec width (List.length r)) as [Hlt|Hle]; [discriminate|].
    bind_ok H. injection H as <-.
    constructor; [now apply pad_length | now apply IH].
Qed.

Lemma align_length (n : nat) (data out : list (list pystr)) :
  Pandas.align n data = Ok out ->
  Forall (fun r => List.length r = Pandas.table_width n data) out.
Proof.
  destruct data as [|r1 rest]; simpl; intros H.
  - injection H as <-. constructor.
  - bind_ok H. injection H as <-. constructor.
    + apply pad_length. lia.
    + eapply align_rest_length; eassumption.
Qed.

Lemma convert_record_length (ks : list Pandas.kind) (r : list pystr) :
  List.length ks = List.length r ->
  List.length (Pandas.convert_record ks r) = List.length r.
Proof.
  revert r. induction ks as [|k ks IH]; intros [|w r]; simpl; intros H;
    try discriminate; [reflexivity|].
  f_equal. apply IH. lia.
Qed.

Lemma kinds_length (is_number : pystr -> bool) (n : nat) (body : list (list pystr)) :
  List.length (Pandas.kinds is_number n body) = n.
Proof. unfold Pandas.kinds. now rewrite length_map, length_seq. Qed.

Lemma read_csv_rectangular (is_number : pystr -> bool) (fs : Pandas.FS)
      (filename : pystr) (d : Pandas.Frame) :
  Pandas.read_csv is_number fs filename = Ok d ->
  Forall (fun r => List.length r = List.length (Pandas.columns d)) (Pandas.records d).
Proof.
  unfold Pandas.read_csv.
  destruct (Pandas.content fs filename) as [text|]; [|discriminate].
  intros H. bind_ok H.
  destruct a as [|header data]; [discriminate|].
  bind_ok H. injection H as <-. simpl.
  apply align_length in E0.
  rewrite Forall_map, Forall_map.
  eapply Forall_impl; [|exact E0]. intros r Hr. simpl in Hr.
  assert (Hk : List.length
                 (skipn (Pandas.table_width (List.length header) data
                         - List.length header) r) = List.length header).
  { rewrite length_skipn, Hr. destruct data as [|r1 rest]; simpl; lia. }
  rewrite convert_record_length; [exact Hk|].
  now rewrite kinds_length, Hk.
Qed.

Lemma row_get_present (cols : list pystr) (record : list Pandas.cell) (label : pystr) :
  List.length record = List.length cols ->
  existsb (str_eqb label) cols = true ->
  exists v, Pandas.row_get cols record label = Ok v.
Proof.
  revert record. induction cols as [|c cols IH]; intros [|v record]; simpl;
    intros Hlen Hex; try discriminate.
  destruct (str_eqb label c); [eauto|]. apply IH; [lia | exact Hex].
Qed.

Lemma row_get_absent (cols : list pystr) (record : list Pandas.cell) (label : pystr) :
  existsb (str_eqb label) cols = false ->
  Pandas.row_get cols record label = Raise KeyError.
Proof.
  revert record. induction cols as [|c cols IH]; intros [|v record]; simpl;
    intros Hex; try reflexivity.
  destruct (str_eqb label c); [discriminate|]. now apply IH.
Qed.

Lemma row_get_raises (cols : list pystr) (record : list Pandas.cell)
      (label : pystr) (e : exn) :
  Pandas.row_get cols record label = Raise e -> e = KeyError.
Proof.
  revert record. induction cols as [|c cols IH]; intros [|v record]; simpl;
    intros H; try (now injection H).
  destruct (str_eqb label c); [discriminate|]. now apply (IH record).
Qed.

Lemma load_doc_present (cols : list pystr) (record : list Pandas.cell) :
  List.length record = List.length cols ->
  existsb (str_eqb (lit "texte")) cols = true ->
  existsb (str_eqb (lit "source")) cols = true ->
  exists doc, load_doc cols record = Ok doc.
Proof.
  intros Hlen Ht Hs. unfold load_doc.
  destruct (@row_get_present cols record (lit "texte") Hlen Ht) as (t & ->).
  destruct (@row_get_present cols record (lit "source") Hlen Hs) as (s & ->).
  simpl. eauto.
Qed.

Lemma load_doc_absent (cols : list pystr) (record : list Pandas.cell) :
  existsb (str_eqb (lit "texte")) cols && existsb (str_eqb (lit "source")) cols = false ->
  load_doc cols record = Raise KeyError.
Proof.
  intros H. unfold load_doc.
  destruct (existsb (str_eqb (lit "texte")) cols) eqn:Ht.
  - cbn [andb] in H. rewrite (@row_get_absent cols record (lit "source") H).
    destruct (Pandas.row_get cols record (lit "texte")) as [t|e] eqn:E;
      [reflexivity|].
    apply row_get_raises in E. now subst e.
  - now rewrite (@row_get_absent cols record (lit "texte") Ht).
Qed.

Lemma mapM_total {A B} (f : A -> result B) (l : list A) :
  Forall (fun x => exists y, f x = Ok y) l ->
  exists ys, mapM f l = Ok ys /\ List.length ys = List.length l.
Proof.
  induction 1 as [|x l (y & Hy) _ (ys & Hys & Hlen)]; simpl.
  - eauto.
  - rewrite Hy, Hys. simpl. eexists. split; [reflexivity|]. simpl. now rewrite Hlen.
Qed.

(** C7 (amended).  Whatever [read_csv] raises (no such file, no column
    to parse, a malformed line) is what [load] raises.  When the file
    parses: with both columns ['texte'] and ['source'] in the header,
    [load] returns a store with one entry per data line; with one of them
    missing, [load] raises [KeyError] if there is a data line, and returns
    the empty store if there is none. *)
Theorem load_outcomes :
  forall (is_number : pystr -> bool) (fs : Pandas.FS) (filename : pystr),
    match Pandas.read_csv is_number fs filename with
    | Raise e => load is_number fs filename = Raise e
    | Ok d =>
        if existsb (str_eqb (lit "texte")) (Pandas.columns d)
           && existsb (str_eqb (lit "source")) (Pandas.columns d)
        then exists c,
               load is_number fs filename = Ok c /\
               len c = List.length (Pandas.records d)
        else match Pandas.records d with
             | [] => load is_number fs filename = Ok (new [])
             | _ :: _ => load is_number fs filename = Raise KeyError
             end
    end.
Proof.
  intros is_number fs filename. unfold load.
  destruct (Pandas.read_csv is_number fs filename) as [d|e] eqn:E; [|reflexivity].
  cbn [bind]. pose proof (@read_csv_rectangular is_number fs filename d E) as Hrect.
  destruct (existsb (str_eqb (lit "texte")) (Pandas.columns d)
            && existsb (str_eqb (lit "source")) (Pandas.columns d)) eqn:Hc.
  - apply andb_prop in Hc as [Ht Hs].
    destruct (@mapM_total _ _ (load_doc (Pandas.columns d)) (Pandas.records d))
      as (l & Hl & Hlen).
    { eapply Forall_impl; [|exact Hrect]. intros r Hr.
      now apply load_doc_present. }
    rewrite Hl. cbn [bind]. eexists. split; [reflexivity|].
    now rewrite len_new.
  - destruct (Pandas.records d) as [|r rs]; [reflexivity|].
    cbn [mapM]. now rewrite (@load_doc_absent (Pandas.columns d) r Hc).
Qed.

Section Table.
Variable quote_cr : bool.








Section Reading.
Variable is_number : pystr -> bool.














End Reading.
End Table.

Section RoundTrip.
Variable quote_cr : bool.
Variable is_number : pystr -> bool.








Lemma text_source_new {T} (l : list (Doc T)) :
  text_source (df (new l)) = map (fun d => (texte d, source d)) l.
Proof.
  unfold text_source, new. simpl. destruct l as [|d l]; [reflexivity|].
  unfold _create_dataframe, base_rows. generalize 0.
  induction (d :: l) as [|d' l' IH]; intros i; simpl; [reflexivity|].
  now rewrite IH.
Qed.

End RoundTrip.



(** Outside the plain strings: an empty text (an arxiv entry without
    summary) is read back as a missing value, not as the empty string. *)
Example empty_text_read_as_missing :
  match load digits_only
             (fst (save false (lit "corpus.csv") summaryless_store no_files))
             (lit "corpus.csv") with
  | Ok c' => text_source (df c') = [(CNaN, CStr (lit "arxiv"))]
  | Raise _ => False
  end.
Proof. vm_compute. reflexivity. Qed.

(** Outside the plain strings as well: the word true, in any letter
    case, is read back as a boolean. *)
Example mixed_case_true_read_as_boolean :
  plain false digits_only (lit "tRue") = false /\
  match load digits_only
             (fst (save false (lit "corpus.csv") mixed_case_store no_files))
             (lit "corpus.csv") with
  | Ok c' => text_source (df c') = [(CBool true, CStr (lit "reddit"))]
  | Raise _ => False
  end.
Proof. split; [reflexivity|]. vm_compute. reflexivity. Qed.

End PersistFacts.

(** * Further properties of the acquisition and of the store *)

Module AcquisitionExtras.
Import Py Acquisition PyFacts AcquisitionFacts.

Lemma mapM_length {A B} (f : A -> result B) (l : list A) (ys : list B) :
  mapM f l = Ok ys -> List.length ys = List.length l.
Proof.
  revert ys. induction l as [|x l IH]; simpl; intros ys H.
  - now injection H as <-.
  - bind_ok H. bind_ok H. injection H as <-. simpl. f_equal. now apply IH.
Qed.

Lemma reddit_doc_shape (sub : Submission) (d : Doc pystr) :
  reddit_doc sub = Ok d ->
  source d = lit "reddit" /\ map fst (extra d) = extra_keys.
Proof.
  unfold reddit_doc. intros H. repeat bind_ok H. injection H as <-.
  split; reflexivity.
Qed.

Lemma arxiv_doc_shape (e : pyval) (d : Doc pystr) :
  arxiv_doc e = Ok d ->
  source d = lit "arxiv" /\ map fst (extra d) = extra_keys.
Proof.
  unfold arxiv_doc. intros H. repeat bind_ok H. injection H as <-.
  split; reflexivity.
Qed.

Lemma get_arxiv_docs_forall (P : Doc pystr -> Prop) (articles : pyval)
      (docs : list (Doc pystr)) :
  (forall e d, arxiv_doc e = Ok d -> P d) ->
  get_arxiv_docs articles = Ok docs -> Forall P docs.
Proof.
  intros HP H. unfold get_arxiv_docs in H. bind_ok H. bind_ok H.
  destruct a0; [|injection H as <-; constructor].
  bind_ok H. eapply mapM_ok_forall; [exact HP | exact H].
Qed.

Lemma get_docs_split (results : list Submission) (articles : pyval)
      (docs : list (Doc pystr)) :
  get_docs results articles = Ok docs ->
  exists docs_reddit docs_arxiv,
    docs = docs_reddit ++ docs_arxiv /\
    get_reddit_docs results = Ok docs_reddit /\
    get_arxiv_docs articles = Ok docs_arxiv /\
    List.length docs_reddit = List.length results /\
    Forall (fun d => source d = lit "reddit") docs_reddit /\
    Forall (fun d => source d = lit "arxiv") docs_arxiv.
Proof.
  intros H. unfold get_docs in H.
  destruct (get_reddit_docs results) as [dr|] eqn:Er; simpl in H; [|discriminate].
  destruct (get_arxiv_docs articles) as [da|] eqn:Ea; simpl in H; [|discriminate].
  injection H as <-. exists dr, da. repeat split.
  - eapply mapM_length. exact Er.
  - eapply mapM_ok_forall; [|exact Er]. intros x y Hy.
    now apply reddit_doc_shape in Hy.
  - eapply get_arxiv_docs_forall; [|exact Ea]. intros e d Hd.
    now apply arxiv_doc_shape in Hd.
Qed.

(** X1.  When [get_docs] returns, its list is the reddit documents, one
    per submission and in their order, followed by the arxiv documents;
    the former are tagged reddit, the latter arxiv, both parts are what
    [get_reddit_docs] and [get_arxiv_docs] return, and no text of the
    list holds a line feed. *)
Theorem get_docs_reddit_then_arxiv :
  forall results articles docs,
    get_docs results articles = Ok docs ->
    exists docs_reddit docs_arxiv,
      docs = docs_reddit ++ docs_arxiv /\
      get_reddit_docs results = Ok docs_reddit /\
      get_arxiv_docs articles = Ok docs_arxiv /\
      List.length docs_reddit = List.length results /\
      Forall (fun d => source d = lit "reddit") docs_reddit /\
      Forall (fun d => source d = lit "arxiv") docs_arxiv /\
      Forall (fun d => count_char NL (texte d) = 0) docs.
Proof.
  intros results articles docs H.
  destruct (get_docs_split _ _ H) as (dr & da & -> & Hr & Ha & Hlen & Htr & Hta).
  exists dr, da. repeat split; try assumption.
  apply Forall_app. split.
  - eapply mapM_ok_forall; [|exact Hr]. intros sub d Hd.
    apply reddit_doc_text in Hd as (t & b & _ & _ & ->).
    apply count_char_replace_nl.
  - eapply get_arxiv_docs_forall; [|exact Ha]. intros e d Hd.
    apply arxiv_doc_text in Hd as (x & _ & ->).
    apply count_char_replace_nl.
Qed.

Lemma get_docs_reddit_then_arxiv_witness :
  exists docs_reddit docs_arxiv,
    List.length docs_reddit = 1 /\ List.length docs_arxiv = 2 /\
    get_docs [sample_submission] (feed_of (VList [sample_entry; sample_entry]))
    = Ok (docs_reddit ++ docs_arxiv).
Proof.
  destruct (get_docs [sample_submission] (feed_of (VList [sample_entry; sample_entry])))
    as [docs|] eqn:E; [|discriminate E].
  destruct (get_docs_reddit_then_arxiv _ _ E) as (dr & da & -> & _ & Ha & Hl & _).
  exists dr, da. repeat split; [exact Hl|].
  change (get_arxiv_docs (feed_of (VList [sample_entry; sample_entry])))
    with (mapM arxiv_doc [sample_entry; sample_entry]) in Ha.
  now apply mapM_length in Ha.
Defined.

(** X2.  Every document [get_docs] returns has, beside its text and
    source, exactly the keys titre, auteur, date, url in this order, a
    title that is a string, and a source that is reddit or arxiv. *)
Theorem docs_have_one_schema :
  forall results articles docs,
    get_docs results articles = Ok docs ->
    Forall (fun d =>
              map fst (extra d) = extra_keys /\
              (exists t, lookup (lit "titre") (extra d) = Some (VStr t)) /\
              (source d = lit "reddit" \/ source d = lit "arxiv")) docs.
Proof.
  intros results articles docs H. unfold get_docs in H.
  destruct (get_reddit_docs results) as [dr|] eqn:Er; simpl in H; [|discriminate].
  destruct (get_arxiv_docs articles) as [da|] eqn:Ea; simpl in H; [|discriminate].
  injection H as <-. apply Forall_app. split.
  - eapply mapM_ok_forall; [|exact Er]. intros sub d Hd.
    unfold reddit_doc in Hd.
    destruct (title sub) as [[|t| | |]|]; simpl in Hd; try discriminate.
    repeat bind_ok Hd. injection Hd as <-. simpl. eauto.
  - eapply get_arxiv_docs_forall; [|exact Ea]. intros e d Hd.
    unfold arxiv_doc in Hd. repeat bind_ok Hd. injection Hd as <-. simpl. eauto.
Qed.

Lemma docs_have_one_schema_witness :
  exists docs,
    get_docs [sample_submission] (feed_of sample_entry) = Ok docs /\
    Forall (fun d => map fst (extra d) = extra_keys) docs.
Proof.
  destruct (get_docs [sample_submission] (feed_of sample_entry))
    as [docs|] eqn:E; [|discriminate E].
  exists docs. split; [reflexivity|].
  eapply Forall_impl; [|exact (docs_have_one_schema _ _ E)].
  intros d (H & _). exact H.
Defined.

(** X3.  A feed whose entry is a single object (not a list) gives what
    the feed with the one-element list of that object gives: the document
    of that entry alone, or its exception. *)
Theorem single_entry_is_a_list_of_one :
  forall kv fkv kv' fkv' e,
    lookup (lit "feed") kv = Some (VDict fkv) ->
    lookup (lit "entry") fkv = Some e ->
    (forall l, e <> VList l) ->
    lookup (lit "feed") kv' = Some (VDict fkv') ->
    lookup (lit "entry") fkv' = Some (VList [e]) ->
    get_arxiv_docs (VDict kv) = get_arxiv_docs (VDict kv') /\
    get_arxiv_docs (VDict kv) = bind (arxiv_doc e) (fun d => Ok [d]).
Proof.
  intros kv fkv kv' fkv' e Hf He Hnl Hf' He'.
  rewrite (get_arxiv_docs_entries kv Hf He), (get_arxiv_docs_entries kv' Hf' He').
  assert (Hl : as_list e = [e]).
  { destruct e; try reflexivity. exfalso. now apply (Hnl l). }
  rewrite Hl. split; [reflexivity|].
  cbn [mapM as_list]. destruct (arxiv_doc e); reflexivity.
Qed.

Lemma single_entry_is_a_list_of_one_witness :
  get_arxiv_docs (feed_of sample_entry) = get_arxiv_docs (feed_of (VList [sample_entry])).
Proof.
  refine (proj1 (@single_entry_is_a_list_of_one
            [(lit "feed", VDict [(lit "title", VStr (lit "ArXiv Query"));
                                 (lit "entry", sample_entry)])]
            [(lit "title", VStr (lit "ArXiv Query")); (lit "entry", sample_entry)]
            [(lit "feed", VDict [(lit "title", VStr (lit "ArXiv Query"));
                                 (lit "entry", VList [sample_entry])])]
            [(lit "title", VStr (lit "ArXiv Query")); (lit "entry", VList [sample_entry])]
            sample_entry eq_refl eq_refl _ eq_refl eq_refl)).
  intros l H. discriminate H.
Defined.

(** X4.  With a usable summary: an empty author list makes [arxiv_doc]
    raise [IndexError]; a list whose first element is not a dict makes it
    raise [AttributeError]; an author that is neither a dict nor a list,
    or an author object without name, gives the author Unknown. *)
Theorem author_edge_cases :
  forall kv s,
    lookup (lit "summary") kv = Some (VStr s) \/
    (lookup (lit "summary") kv = None /\ s = empty) ->
    (lookup (lit "author") kv = Some (VList []) ->
     arxiv_doc (VDict kv) = Raise IndexError) /\
    (forall first others,
       lookup (lit "author") kv = Some (VList (first :: others)) ->
       (forall obj, first <> VDict obj) ->
       arxiv_doc (VDict kv) = Raise AttributeError) /\
    (forall a doc,
       lookup (lit "author") kv = Some a ->
       (forall obj, a <> VDict obj) -> (forall l, a <> VList l) ->
       arxiv_doc (VDict kv) = Ok doc ->
       lookup (lit "auteur") (extra doc) = Some (VStr (lit "Unknown"))) /\
    (forall obj others doc,
       lookup (lit "author") kv = Some (VDict obj) \/
       lookup (lit "author") kv = Some (VList (VDict obj :: others)) ->
       lookup (lit "name") obj = None ->
       arxiv_doc (VDict kv) = Ok doc ->
       lookup (lit "auteur") (extra doc) = Some (VStr (lit "Unknown"))).
Proof.
  intros kv s Hs.
  assert (Hsum : get (VDict kv) (lit "summary") (VStr empty) = Ok (VStr s)).
  { unfold get. destruct Hs as [->|(-> & ->)]; reflexivity. }
  assert (Hdoc : forall e, resolve_author (VDict kv) = Raise e ->
                           arxiv_doc (VDict kv) = Raise e).
  { intros e He. unfold arxiv_doc. rewrite Hsum. cbn [bind replace_nl].
    now rewrite He. }
  repeat split.
  - intros Ha. apply Hdoc. unfold resolve_author, contains, getitem.
    now rewrite Ha.
  - intros first others Ha Hnd. apply Hdoc.
    unfold resolve_author, contains, getitem. rewrite Ha. cbn [bind].
    destruct first; try reflexivity. exfalso. now apply (Hnd d).
  - intros a doc Ha Hnd Hnl H.
    destruct (arxiv_doc_author kv H) as (x & Hx & ->). f_equal.
    unfold resolve_author, contains, getitem in Hx. rewrite Ha in Hx.
    cbn [bind] in Hx. destruct a; try (now injection Hx as <-).
    + exfalso. now apply (Hnl l).
    + exfalso. now apply (Hnd d).
  - intros obj others doc Ha Hname H.
    destruct (arxiv_doc_author kv H) as (x & Hx & ->). f_equal.
    unfold resolve_author, contains, getitem, get in Hx.
    destruct Ha as [Ha|Ha]; rewrite Ha in Hx; cbn [bind] in Hx;
      rewrite Hname in Hx; now injection Hx as <-.
Qed.

Lemma author_edge_cases_witness :
  arxiv_doc (VDict [(lit "summary", VStr (lit "s")); (lit "author", VList [])])
  = Raise IndexError.
Proof.
  exact (proj1 (@author_edge_cases
                  [(lit "summary", VStr (lit "s")); (lit "author", VList [])]
                  (lit "s") (or_introl eq_refl)) eq_refl).
Defined.

(** X5.  An entry dict with none of the keys summary, author, title,
    published, id is not an error: its document has the empty text, the
    empty title, date and url, and the author Unknown. *)
Theorem entry_without_keys_gets_defaults :
  forall kv,
    lookup (lit "summary") kv = None ->
    lookup (lit "author") kv = None ->
    lookup (lit "title") kv = None ->
    lookup (lit "published") kv = None ->
    lookup (lit "id") kv = None ->
    arxiv_doc (VDict kv) =
    Ok (mkDoc empty (lit "arxiv")
          [ (lit "titre", VStr empty);
            (lit "auteur", VStr (lit "Unknown"));
            (lit "date", VStr empty);
            (lit "url", VStr empty) ]).
Proof.
  intros kv Hs Ha Ht Hp Hi.
  unfold arxiv_doc, resolve_author, contains, getitem, get.
  rewrite Hs, Ha, Ht, Hp, Hi. reflexivity.
Qed.

Lemma entry_without_keys_gets_defaults_witness :
  exists doc, arxiv_doc (VDict []) = Ok doc /\ texte doc = empty.
Proof.
  eexists. split.
  - exact (@entry_without_keys_gets_defaults [] eq_refl eq_refl eq_refl eq_refl eq_refl).
  - reflexivity.
Defined.

(** X6.  A parsed response without feed key makes [get_arxiv_docs]
    raise [KeyError]; a feed that is [None] makes it raise [TypeError]; a
    feed that is a string gives no document unless the string contains
    entry, in which case [TypeError] is raised.  When the reddit part
    raises, [get_docs] raises that exception whatever the response is. *)
Theorem malformed_feed_outcomes :
  forall kv,
    (lookup (lit "feed") kv = None ->
     get_arxiv_docs (VDict kv) = Raise KeyError) /\
    (lookup (lit "feed") kv = Some VNone ->
     get_arxiv_docs (VDict kv) = Raise TypeError) /\
    (forall s,
       lookup (lit "feed") kv = Some (VStr s) ->
       get_arxiv_docs (VDict kv) =
       if substring_of (lit "entry") s then Raise TypeError else Ok []) /\
    (forall results e,
       get_reddit_docs results = Raise e ->
       get_docs results (VDict kv) = Raise e).
Proof.
  intros kv. unfold get_arxiv_docs, getitem, contains. repeat split.
  - now intros ->.
  - now intros ->.
  - intros s ->. cbn [bind]. now destruct (substring_of (lit "entry") s).
  - intros results e H. unfold get_docs. now rewrite H.
Qed.

Lemma malformed_feed_outcomes_witness :
  get_arxiv_docs (VDict []) = Raise KeyError.
Proof. exact (proj1 (malformed_feed_outcomes []) eq_refl). Defined.

(** X7.  The text of a reddit document has the length of the title
    plus one plus the length of the body, so it is never empty; the text
    of an arxiv document has the length of the summary, and is empty when
    the entry has no summary. *)
Theorem text_lengths :
  (forall sub d t b,
     reddit_doc sub = Ok d ->
     title sub = Some (VStr t) -> selftext sub = Some (VStr b) ->
     List.length (texte d) = List.length t + 1 + List.length b) /\
  (forall sub d, reddit_doc sub = Ok d -> texte d <> empty) /\
  (forall kv d s,
     arxiv_doc (VDict kv) = Ok d ->
     lookup (lit "summary") kv = Some (VStr s) ->
     List.length (texte d) = List.length s) /\
  (forall kv d,
     arxiv_doc (VDict kv) = Ok d ->
     lookup (lit "summary") kv = None -> texte d = empty).
Proof.
  repeat split.
  - intros sub d t b H Ht Hb.
    apply reddit_doc_text in H as (t' & b' & Ht' & Hb' & ->).
    rewrite Ht in Ht'. rewrite Hb in Hb'. injection Ht' as <-. injection Hb' as <-.
    rewrite replace_char_length, length_app. simpl. lia.
  - intros sub d H E.
    apply reddit_doc_text in H as (t & b & _ & _ & H). rewrite E in H.
    apply (f_equal (@List.length _)) in H.
    rewrite replace_char_length, length_app in H. simpl in H. lia.
  - intros kv d s H Hs. apply arxiv_doc_text in H as (s' & Hs' & ->).
    unfold get in Hs'. rewrite Hs in Hs'. injection Hs' as <-.
    apply replace_char_length.
  - intros kv d H Hs. apply arxiv_doc_text in H as (s' & Hs' & ->).
    unfold get in Hs'. rewrite Hs in Hs'. now injection Hs' as <-.
Qed.

Lemma text_lengths_witness :
  exists d, reddit_doc sample_submission = Ok d /\ List.length (texte d) = 11.
Proof.
  destruct (reddit_doc sample_submission) as [d|] eqn:E; [|discriminate E].
  exists d. split; [reflexivity|].
  exact (proj1 text_lengths sample_submission d (lit "Title") (NL :: lit "body")
           E eq_refl eq_refl).
Defined.

(** the address *)
Lemma no_space_app (a b : pystr) : ~ In SPACE a -> ~ In SPACE b -> ~ In SPACE (a ++ b).
Proof. intros Ha Hb H. apply in_app_or in H as [H|H]; contradiction. Qed.

Lemma uint_no_space (d : Decimal.uint) :
  ~ In SPACE (lit (NilEmpty.string_of_uint d)).
Proof.
  induction d; simpl; intros H; try contradiction;
    destruct H as [H|H]; try discriminate H; contradiction.
Qed.

Lemma nilzero_no_space (d : Decimal.uint) :
  ~ In SPACE (lit (NilZero.string_of_uint d)).
Proof.
  unfold NilZero.string_of_uint. destruct d; try apply uint_no_space.
  simpl. intros [H|[]]. discriminate H.
Qed.

Lemma str_Z_no_space (n : Z) : ~ In SPACE (str_Z n).
Proof.
  unfold str_Z, NilZero.string_of_int. destruct (Z.to_int n) as [d|d].
  - apply nilzero_no_space.
  - intros H. simpl in H. destruct H as [H|H]; [discriminate H|].
    now apply (nilzero_no_space d).
Qed.

Lemma replace_space_no_space (s : pystr) : ~ In SPACE (replace_char SPACE PLUS s).
Proof.
  unfold replace_char. intros H. apply in_map_iff in H as (c & Hc & _).
  destruct (c =? SPACE)%N eqn:E; [discriminate Hc|].
  apply N.eqb_neq in E. contradiction.
Qed.

Lemma replace_char_nth (old new : char) (s : pystr) (i : nat) (c : char) :
  nth_error s i = Some c ->
  nth_error (replace_char old new s) i = Some (if (c =? old)%N then new else c).
Proof.
  intros H. unfold replace_char.
  exact (map_nth_error (fun x => if (x =? old)%N then new else x) i s H).
Qed.

Lemma str_Z_digits (n : Z) : (0 <= n)%Z -> Forall Pandas.is_digit (str_Z n).
Proof.
  intros Hn. unfold str_Z, NilZero.string_of_int.
  destruct n as [|p|p]; [| |lia].
  - repeat constructor; unfold Pandas.is_digit; simpl; lia.
  - cbn [Z.to_int]. unfold NilZero.string_of_uint.
    destruct (Pos.to_uint p) eqn:E;
      try (rewrite <- E; apply PandasFacts.nilempty_digits).
    repeat constructor; unfold Pandas.is_digit; simpl; lia.
Qed.

(** X8.  The address queried is the fixed beginning, the keyword with
    every space turned into a plus sign and every other character left
    in its place, the fixed middle and the limit in decimal digits; it
    holds no space, whatever the keyword and the limit. *)
Theorem arxiv_url_spaces_become_plus :
  forall keyword limit,
    exists query,
      arxiv_url keyword limit =
        lit "http://export.arxiv.org/api/query?search_query=all:" ++ query
        ++ lit "&start=0&max_results=" ++ str_Z limit /\
      List.length query = List.length keyword /\
      (forall i c,
         nth_error keyword i = Some c ->
         nth_error query i = Some (if (c =? SPACE)%N then PLUS else c)) /\
      ((0 <= limit)%Z -> Forall Pandas.is_digit (str_Z limit)) /\
      ~ In SPACE (arxiv_url keyword limit).
Proof.
  intros keyword limit. exists (replace_char SPACE PLUS keyword).
  split; [reflexivity|]. split; [apply replace_char_length|].
  split; [intros i c; apply replace_char_nth|].
  split; [apply str_Z_digits|].
  unfold arxiv_url. repeat apply no_space_app.
  - simpl. intuition discriminate.
  - apply replace_space_no_space.
  - simpl. intuition discriminate.
  - apply str_Z_no_space.
Qed.

(** The address for the keyword deep learning and the default limit. *)
Lemma arxiv_url_spaces_become_plus_witness :
  exists query,
    arxiv_url (lit "deep learning") 20 =
      lit "http://export.arxiv.org/api/query?search_query=all:" ++ query
      ++ lit "&start=0&max_results=" ++ lit "20" /\
    nth_error query 4 = Some PLUS /\
    nth_error query 5 = Some 108%N.
Proof.
  destruct (arxiv_url_spaces_become_plus (lit "deep learning") 20)
    as (query & Hurl & _ & Hnth & _).
  exists query. split; [exact Hurl|]. split.
  - exact (Hnth 4 SPACE eq_refl).
  - exact (Hnth 5 108%N eq_refl).
Defined.

End AcquisitionExtras.

Module StoreExtras.
Import Py Store PyFacts StoreFacts PersistFacts.

(** X9.  [Corpus(docs)] keeps the documents as given: the table holds
    their (texte, source) pairs in the same order, has as many lines as
    there are documents, and is empty exactly when the list is. *)
Theorem construct_keeps_documents :
  forall (T : Type) (l : list (Doc T)),
    text_source (df (new l)) = map (fun d => (texte d, source d)) l /\
    len (new l) = List.length l /\
    docs (new l) = l /\
    df_empty (df (new l)) = match l with [] => true | _ :: _ => false end.
Proof.
  intros T l. split; [apply text_source_new|]. split; [apply len_new|].
  split; [reflexivity|]. destruct l; reflexivity.
Qed.

(** composition of thresholds *)
Lemma longer_than_texte (m : Z) (r : Row pystr) (i : nat) :
  longer_than m (mkRow i (row_texte r) (row_source r)) = longer_than m r.
Proof. reflexivity. Qed.

Lemma renumber_filter_renumber (m : Z) (rows : list (Row pystr)) (i j : nat) :
  renumber_from i (filter (longer_than m) (renumber_from j rows)) =
  renumber_from i (filter (longer_than m) rows).
Proof.
  revert i j. induction rows as [|r rows IH]; intros i j; [reflexivity|].
  cbn [renumber_from filter]. rewrite longer_than_texte.
  destruct (longer_than m r); cbn [renumber_from]; [f_equal|]; apply IH.
Qed.

Lemma renumber_stats_filter_renumber (m : Z) (rows : list (Row pystr * Counts)) (i j : nat) :
  renumber_stats_from i
    (filter (fun rk => longer_than m (fst rk)) (renumber_stats_from j rows)) =
  renumber_stats_from i (filter (fun rk => longer_than m (fst rk)) rows).
Proof.
  revert i j. induction rows as [|[r k] rows IH]; intros i j; [reflexivity|].
  cbn [renumber_stats_from filter fst]. rewrite longer_than_texte.
  destruct (longer_than m r); cbn [renumber_stats_from]; [f_equal|]; apply IH.
Qed.

Lemma filter_filter_le {A} (f g : A -> bool) (l : list A) :
  (forall x, g x = true -> f x = true) ->
  filter g (filter f l) = filter g l.
Proof.
  intros H. induction l as [|x l IH]; [reflexivity|]. cbn [filter].
  destruct (f x) eqn:F; cbn [filter].
  - destruct (g x); now rewrite IH.
  - destruct (g x) eqn:G; [|exact IH]. apply H in G. congruence.
Qed.

Lemma longer_than_mono (m m' : Z) (r : Row pystr) :
  (m <= m')%Z -> longer_than m' r = true -> longer_than m r = true.
Proof. unfold longer_than. intros H H'. apply Z.ltb_lt in H'. apply Z.ltb_lt. lia. Qed.

Lemma filter_renumber_compose (m m' : Z) (d : DataFrame pystr) :
  (m <= m')%Z ->
  filter_renumber m' (filter_renumber m d) = filter_renumber m' d.
Proof.
  intros H. destruct d as [|rows|rows]; cbn [filter_renumber]; [reflexivity| |].
  - rewrite renumber_filter_renumber, filter_filter_le; [reflexivity|].
    intros r. now apply longer_than_mono.
  - rewrite renumber_stats_filter_renumber.
    rewrite (filter_filter_le (fun rk => longer_than m (fst rk))
                              (fun rk => longer_than m' (fst rk))); [reflexivity|].
    intros rk. now apply longer_than_mono.
Qed.

Lemma filter_renumber_of_empty (m : Z) (d : DataFrame pystr) :
  df_empty d = true -> filter_renumber m d = d.
Proof.
  destruct d as [|[|r rows]|[|rk rows]]; intros E; try reflexivity;
    discriminate E.
Qed.

(** X10.  Cleaning with a threshold and then with a larger one gives the
    store that cleaning with the larger one alone gives. *)
Theorem clean_thresholds_compose :
  forall (m m' : Z) (c : Corpus pystr),
    (m <= m')%Z ->
    fst (clean m' (fst (clean m c))) = fst (clean m' c).
Proof.
  intros m m' c H.
  destruct (df_empty (df c)) eqn:E.
  - rewrite (clean_empty m c E). simpl. reflexivity.
  - rewrite (clean_nonempty m c E), (clean_nonempty m' c E).
    destruct (df_empty (filter_renumber m (df c))) eqn:E'.
    + rewrite clean_empty by exact E'. simpl. f_equal.
      rewrite <- (filter_renumber_compose (df c) H).
      symmetry. now apply filter_renumber_of_empty.
    + rewrite clean_nonempty by exact E'. simpl. f_equal.
      now apply filter_renumber_compose.
Qed.

Lemma clean_thresholds_compose_witness :
  fst (clean 5 (fst (clean 1 scenario_store))) = fst (clean 5 scenario_store).
Proof.
  apply (@clean_thresholds_compose 1 5 scenario_store). discriminate.
Defined.

(** X11.  [clean] prints nothing exactly on an empty table, which it
    leaves as it is.  Otherwise the count before is the size of the store,
    the count after is the number of texts longer than the threshold, and
    before = after + removed. *)
Theorem clean_report_counts :
  forall (m : Z) (c : Corpus pystr),
    match snd (clean m c) with
    | None => df_empty (df c) = true /\ fst (clean m c) = c
    | Some r =>
        df_empty (df c) = false /\
        nb_avant r = len c /\
        nb_apres r = List.length (filter (kept m) (text_source (df c))) /\
        nb_avant r = nb_apres r + nb_supprimes r
    end.
Proof.
  intros m c. destruct (snd (clean m c)) as [r|] eqn:E.
  - destruct (clean_report_removed m c E) as (Ha & Hp & Hs).
    pose proof (clean_len_le m c) as Hle.
    assert (Hlen : len (fst (clean m c)) =
                   List.length (filter (kept m) (text_source (df c)))).
    { rewrite <- clean_text_source. unfold len, df_len, text_source.
      now rewrite length_map. }
    repeat split.
    + unfold clean in E. destruct (df_empty (df c)); [discriminate E|reflexivity].
    + exact Ha.
    + now rewrite Hp.
    + lia.
  - unfold clean in *. destruct (df_empty (df c)); [auto|discriminate E].
Qed.

(** X12.  [clean] filters the table only: the document list of the store
    stays whole, so a store rebuilt from it has the removed entries
    again. *)
Theorem clean_keeps_document_list :
  forall (m : Z) (c : Corpus pystr) (l : list (Doc pystr)),
    docs (fst (clean m c)) = docs c /\
    new (docs (fst (clean m (new l)))) = new l.
Proof.
  intros m c l.
  assert (H : forall c0, docs (fst (clean m c0)) = docs c0).
  { intros c0. unfold clean. now destruct (df_empty (df c0)). }
  split; [apply H|]. now rewrite H.
Qed.

Lemma counted_rows (rows : list (Row pystr)) :
  map fst (map (fun r => (r, count_row r)) rows) = rows.
Proof. rewrite map_map. apply map_id. Qed.

(** X13.  A second [get_stats] changes nothing and reports what the first
    reported. *)
Theorem get_stats_twice :
  forall c : Corpus pystr,
    get_stats (fst (get_stats c)) = (fst (get_stats c), snd (get_stats c)).
Proof.
  intros c. unfold get_stats at 2 3 4.
  destruct (df_empty (df c)) eqn:E; cbn [fst snd].
  - unfold get_stats. now rewrite E.
  - unfold get_stats. cbn [df docs base_rows]. unfold df_empty at 1.
    cbn [base_rows]. rewrite !counted_rows.
    unfold df_empty in E. rewrite E. reflexivity.
Qed.

Lemma count_row_texte (r : Row pystr) (i : nat) :
  count_row (mkRow i (row_texte r) (row_source r)) = count_row r.
Proof. reflexivity. Qed.

Lemma counted_renumber (P : Row pystr -> bool) (rows : list (Row pystr)) (i : nat) :
  (forall r j, P (mkRow j (row_texte r) (row_source r)) = P r) ->
  map (fun r => (r, count_row r)) (renumber_from i (filter P rows)) =
  renumber_stats_from i
    (filter (fun rk => P (fst rk)) (map (fun r => (r, count_row r)) rows)).
Proof.
  intros HP. revert i. induction rows as [|r rows IH]; intros i; [reflexivity|].
  cbn [filter map fst]. destruct (P r); cbn [renumber_from renumber_stats_from map].
  - rewrite count_row_texte. f_equal. apply IH.
  - apply IH.
Qed.

Lemma base_rows_filter_renumber (m : Z) (d : DataFrame pystr) :
  base_rows (filter_renumber m d) =
  renumber_from 0 (filter (longer_than m) (base_rows d)).
Proof.
  destruct d as [|rows|rows]; cbn [filter_renumber base_rows]; try reflexivity.
  generalize 0. induction rows as [|[r k] rows IH]; intros i; [reflexivity|].
  cbn [filter map fst renumber_stats_from].
  destruct (longer_than m r); cbn [renumber_stats_from renumber_from map fst].
  - f_equal. apply IH.
  - apply IH.
Qed.

(** X14.  When cleaning leaves at least one entry, computing the
    statistics after cleaning gives the same store as cleaning after
    computing them: the added columns follow the lines kept. *)
Theorem stats_and_clean_commute :
  forall (m : Z) (c : Corpus pystr),
    df_empty (df (fst (clean m c))) = false ->
    fst (get_stats (fst (clean m c))) = fst (clean m (fst (get_stats c))).
Proof.
  intros m c Hleft.
  destruct (df_empty (df c)) eqn:E.
  - rewrite (clean_empty m c E) in Hleft. simpl in Hleft. congruence.
  - rewrite (clean_nonempty m c E) in *. cbn [df] in Hleft.
    unfold get_stats. cbn [df docs]. rewrite Hleft, E. cbn [fst].
    rewrite clean_nonempty.
    + cbn [df docs filter_renumber]. f_equal. f_equal.
      rewrite base_rows_filter_renumber. now apply counted_renumber.
    + cbn [df]. unfold df_empty in *. cbn [base_rows]. rewrite counted_rows.
      exact E.
Qed.

Lemma stats_and_clean_commute_witness :
  fst (get_stats (fst (clean 5 scenario_store))) =
  fst (clean 5 (fst (get_stats scenario_store))).
Proof. exact (@stats_and_clean_commute 5 scenario_store eq_refl). Defined.

(** word counts *)
Lemma count_words_from_bound (s : pystr) (inside : bool) :
  2 * count_words_from inside s + (if inside then 1 else 0) <= List.length s + 1.
Proof.
  revert inside. induction s as [|c s IH]; intros inside.
  - destruct inside; simpl; lia.
  - cbn [count_words_from List.length]. destruct (is_space c).
    + specialize (IH false). destruct inside; simpl in *; lia.
    + destruct inside.
      * specialize (IH true). simpl in *. lia.
      * specialize (IH true). simpl in *. lia.
Qed.

Lemma count_char_le (c : char) (s : pystr) : count_char c s <= List.length s.
Proof. unfold count_char. apply filter_length_le. Qed.

(** X15.  The columns [get_stats] adds: on every line, the character
    count is the length of the text, the sentence count is at most the
    character count, and twice the word count is at most the character
    count plus one; the lines themselves are unchanged. *)
Theorem stats_columns_bounds :
  forall (c : Corpus pystr) (rows : list (Row pystr * Counts)),
    df (fst (get_stats c)) = DfStats rows ->
    map fst rows = base_rows (df c) /\
    Forall (fun rk =>
              nb_chars (snd rk) = List.length (row_texte (fst rk)) /\
              nb_phrases (snd rk) <= nb_chars (snd rk) /\
              2 * nb_mots (snd rk) <= nb_chars (snd rk) + 1) rows.
Proof.
  intros c rows H. unfold get_stats in H.
  destruct (df_empty (df c)) eqn:E; cbn [fst df] in H.
  - unfold df_empty in E. destruct (df c) as [|l|l]; try discriminate H.
    injection H as <-. cbn [base_rows] in *.
    destruct (map fst l) eqn:El; [|discriminate E].
    destruct l; [|discriminate El]. split; [reflexivity|constructor].
  - injection H as <-. split; [apply counted_rows|].
    apply Forall_map. apply Forall_forall. intros r _. cbn [fst snd count_row nb_chars nb_phrases nb_mots].
    repeat split.
    + apply count_char_le.
    + pose proof (count_words_from_bound (row_texte r) false) as Hb.
      unfold count_words. simpl in Hb. lia.
Qed.

Lemma stats_columns_bounds_witness :
  exists rows,
    df (fst (get_stats scenario_store)) = DfStats rows /\
    map fst rows = base_rows (df scenario_store).
Proof.
  eexists. split; [reflexivity|].
  exact (proj1 (@stats_columns_bounds scenario_store _ eq_refl)).
Defined.

(** the summary of the word counts *)
Lemma fold_min_spec (l : list nat) (a : nat) :
  let m := fold_left Nat.min l a in
  m <= a /\ Forall (fun y => m <= y) l /\ (m = a \/ In m l).
Proof.
  revert a. induction l as [|x l IH]; intros a; cbn [fold_left].
  - repeat split; auto.
  - destruct (IH (Nat.min a x)) as (H1 & H2 & H3). repeat split.
    + lia.
    + constructor; [lia | exact H2].
    + destruct H3 as [H3|H3]; [|right; now right].
      destruct (Nat.min_spec a x) as [(_ & E)|(_ & E)].
      * left. now rewrite H3.
      * right. left. now rewrite H3.
Qed.

Lemma fold_max_spec (l : list nat) (a : nat) :
  let m := fold_left Nat.max l a in
  a <= m /\ Forall (fun y => y <= m) l /\ (m = a \/ In m l).
Proof.
  revert a. induction l as [|x l IH]; intros a; cbn [fold_left].
  - repeat split; auto.
  - destruct (IH (Nat.max a x)) as (H1 & H2 & H3). repeat split.
    + lia.
    + constructor; [lia | exact H2].
    + destruct H3 as [H3|H3]; [|right; now right].
      destruct (Nat.max_spec a x) as [(_ & E)|(_ & E)].
      * right. left. now rewrite H3.
      * left. now rewrite H3.
Qed.

Lemma min_list_spec (l : list nat) :
  l <> [] -> In (min_list l) l /\ Forall (fun y => min_list l <= y) l.
Proof.
  destruct l as [|x l]; [contradiction|]. intros _. unfold min_list.
  destruct (fold_min_spec l x) as (H1 & H2 & H3). split.
  - destruct H3 as [->|H3]; [now left | now right].
  - constructor; assumption.
Qed.

Lemma max_list_spec (l : list nat) :
  l <> [] -> In (max_list l) l /\ Forall (fun y => y <= max_list l) l.
Proof.
  intros Hne. unfold max_list.
  destruct (fold_max_spec l 0) as (H1 & H2 & H3). split; [|exact H2].
  destruct H3 as [E|H3]; [|exact H3].
  destruct l as [|x l]; [contradiction|].
  rewrite E in H2 |- *.
  inversion H2 as [|? ? Hx _]; subst. left. lia.
Qed.

Lemma sum_between (l : list nat) (lo hi : nat) :
  Forall (fun y => lo <= y <= hi) l ->
  lo * List.length l <= fold_right Nat.add 0 l <= hi * List.length l.
Proof.
  induction 1 as [|y l Hy _ IH]; simpl; lia.
Qed.

Lemma mean_between (l : list nat) (lo hi : nat) :
  l <> [] -> Forall (fun y => lo <= y <= hi) l ->
  (inject_Z (Z.of_nat lo) <= mean l)%Q /\ (mean l <= inject_Z (Z.of_nat hi))%Q.
Proof.
  intros Hne H. apply sum_between in H.
  unfold mean, Qle. cbn [Qnum Qden inject_Z].
  destruct l as [|x l]; [contradiction|].
  set (n := List.length (x :: l)) in *.
  assert (Hn : Z.pos (Pos.of_nat n) = Z.of_nat n).
  { unfold n. cbn [List.length]. rewrite <- Pos.of_nat_succ.
    now rewrite Zpos_P_of_succ_nat, Nat2Z.inj_succ. }
  rewrite Hn. split; nia.
Qed.

(** X16.  In the report of [get_stats] the minimum and the maximum word
    counts are word counts of entries of the store, every entry lies
    between them, and so does the mean. *)
Theorem stats_word_summary :
  forall (c : Corpus pystr) (r : StatsReport),
    snd (get_stats c) = Some r ->
    let words := map (fun row => count_words (row_texte row)) (base_rows (df c)) in
    In (min_mots r) words /\
    In (max_mots r) words /\
    Forall (fun w => min_mots r <= w <= max_mots r) words /\
    (inject_Z (Z.of_nat (min_mots r)) <= moyenne_mots r)%Q /\
    (moyenne_mots r <= inject_Z (Z.of_nat (max_mots r)))%Q.
Proof.
  intros c r H words. unfold get_stats in H.
  destruct (df_empty (df c)) eqn:E; [discriminate H|].
  cbn [snd] in H. injection H as <-. cbn [min_mots max_mots moyenne_mots].
  rewrite !map_map. cbn [snd count_row nb_mots]. fold words.
  assert (Hne : words <> []).
  { unfold words, df_empty in *. destruct (base_rows (df c)); [discriminate E|discriminate]. }
  destruct (min_list_spec Hne) as (Hmin & Hlo).
  destruct (max_list_spec Hne) as (Hmax & Hhi).
  assert (Hboth : Forall (fun w => min_list words <= w <= max_list words) words).
  { apply Forall_forall. intros w Hw. split.
    - exact (proj1 (Forall_forall _ _) Hlo w Hw).
    - exact (proj1 (Forall_forall _ _) Hhi w Hw). }
  split; [exact Hmin|]. split; [exact Hmax|]. split; [exact Hboth|].
  now apply mean_between.
Qed.

Lemma stats_word_summary_witness :
  exists r, snd (get_stats scenario_store) = Some r /\ In (min_mots r) [3; 1].
Proof.
  eexists. split; [reflexivity|].
  exact (proj1 (@stats_word_summary scenario_store _ eq_refl)).
Defined.

(** the whole text *)
Lemma join_space_length (l : list pystr) :
  List.length (join_space l) + 1 =
  list_sum (map (@List.length char) l) + List.length l \/ l = [].
Proof.
  induction l as [|s l IH]; [now right|]. left.
  destruct l as [|s' l].
  - simpl. lia.
  - destruct IH as [IH|IH]; [|discriminate IH].
    change (join_space (s :: s' :: l)) with (s ++ SPACE :: join_space (s' :: l)).
    rewrite length_app. cbn [List.length map list_sum fold_right] in *. lia.
Qed.

Lemma count_words_app_space (s t : pystr) (inside : bool) :
  count_words_from inside (s ++ SPACE :: t) =
  count_words_from inside s + count_words_from false t.
Proof.
  revert inside. induction s as [|c s IH]; intros inside.
  - reflexivity.
  - cbn [app count_words_from]. destruct (is_space c); [apply IH|].
    destruct inside; rewrite IH; reflexivity.
Qed.

Lemma count_words_join (l : list pystr) :
  count_words (join_space l) = list_sum (map count_words l).
Proof.
  induction l as [|s l IH]; [reflexivity|].
  destruct l as [|s' l].
  - simpl. unfold count_words. lia.
  - change (join_space (s :: s' :: l)) with (s ++ SPACE :: join_space (s' :: l)).
    unfold count_words at 1. rewrite count_words_app_space.
    fold (count_words (join_space (s' :: l))). rewrite IH. reflexivity.
Qed.

(** X17.  [to_text] of an empty store is the empty string.  Otherwise its
    length is the sum of the text lengths plus one separator between
    consecutive texts; in both cases its number of words is the sum of the
    word counts of the texts. *)
Theorem to_text_length_and_words :
  forall c : Corpus pystr,
    let texts := map (@row_texte pystr) (base_rows (df c)) in
    (df_empty (df c) = true -> to_text c = empty) /\
    (df_empty (df c) = false ->
     List.length (to_text c) + 1 =
     list_sum (map (@List.length char) texts) + len c) /\
    count_words (to_text c) = list_sum (map count_words texts).
Proof.
  intros c texts. unfold to_text. destruct (df_empty (df c)) eqn:E.
  - split; [reflexivity|]. split; [discriminate|].
    unfold texts, df_empty in *. destruct (base_rows (df c)); [reflexivity|discriminate E].
  - split; [discriminate|]. split.
    + intros _. fold texts. destruct (join_space_length texts) as [H|H].
      * rewrite H. unfold texts, len, df_len. now rewrite length_map.
      * unfold texts, df_empty in *. destruct (base_rows (df c)); [discriminate E|discriminate H].
    + apply count_words_join.
Qed.

Lemma to_text_length_and_words_witness :
  List.length (to_text scenario_store) + 1 = 20 + 2.
Proof.
  exact (proj1 (proj2 (to_text_length_and_words scenario_store)) eq_refl).
Defined.






(** files *)
Lemma double_quotes_encodable (f : pystr) :
  forallb Pandas.encodable (Pandas.double_quotes f) = forallb Pandas.encodable f.
Proof.
  induction f as [|c f IH]; [reflexivity|].
  cbn [Pandas.double_quotes]. destruct (c =? DQUOTE)%N eqn:E; cbn [forallb].
  - apply N.eqb_eq in E. subst c. now rewrite IH.
  - now rewrite IH.
Qed.

Lemma write_field_encodable (q : bool) (f : pystr) :
  forallb Pandas.encodable (Pandas.write_field q f) = forallb Pandas.encodable f.
Proof.
  unfold Pandas.write_field. destruct (Pandas.needs_quote q f); [|reflexivity].
  cbn [forallb]. rewrite forallb_app, double_quotes_encodable. cbn [forallb].
  change (Pandas.encodable DQUOTE) with true. cbn [andb]. now rewrite andb_true_r.
Qed.

Lemma join_tab_encodable (q : bool) (r : list pystr) :
  forallb Pandas.encodable (Pandas.join_tab (map (Pandas.write_field q) r)) =
  forallb (forallb Pandas.encodable) r.
Proof.
  induction r as [|f r IH]; [reflexivity|].
  destruct r as [|g r].
  - cbn [map Pandas.join_tab forallb]. now rewrite write_field_encodable, andb_true_r.
  - change (Pandas.join_tab (map (Pandas.write_field q) (f :: g :: r)))
      with (Pandas.write_field q f
            ++ TAB :: Pandas.join_tab (map (Pandas.write_field q) (g :: r))).
    rewrite forallb_app. cbn [forallb] in *.
    rewrite write_field_encodable, IH. reflexivity.
Qed.

(** A line can be encoded exactly when each of its fields can. *)
Lemma write_row_encodable (q : bool) (r : list pystr) :
  forallb Pandas.encodable (Pandas.write_row q r) =
  forallb (forallb Pandas.encodable) r.
Proof.
  assert (Hj : forallb Pandas.encodable
                 (Pandas.join_tab (map (Pandas.write_field q) r) ++ [NL]) =
               forallb (forallb Pandas.encodable) r).
  { rewrite forallb_app, join_tab_encodable. cbn [forallb].
    change (Pandas.encodable NL) with true. cbn [andb]. now rewrite andb_true_r. }
  unfold Pandas.write_row.
  destruct r as [|[|c f] [|g r]]; first [exact Hj | reflexivity].
Qed.

Lemma write_lines_done (q : bool) (rs : list (list pystr)) :
  snd (Pandas.write_lines q rs) =
  forallb (forallb (forallb Pandas.encodable)) rs.
Proof.
  induction rs as [|r rs IH]; [reflexivity|].
  cbn [Pandas.write_lines forallb]. rewrite write_row_encodable.
  destruct (forallb (forallb Pandas.encodable) r); [|reflexivity].
  destruct (Pandas.write_lines q rs) as [text done]. cbn [snd andb] in *. exact IH.
Qed.

Lemma digits_encodable (f : pystr) :
  Forall Pandas.is_digit f -> forallb Pandas.encodable f = true.
Proof.
  intros H. apply forallb_forall. intros c Hc.
  apply (proj1 (Forall_forall _ _) H) in Hc. unfold Pandas.is_digit in Hc.
  unfold Pandas.encodable. apply orb_true_iff. left. apply N.ltb_lt. lia.
Qed.

(** The header and the ids and counts are always encodable: whether the
    table can be written rests on the texts and the sources alone. *)
Lemma table_encodable_iff (d : DataFrame pystr) :
  forallb (forallb (forallb Pandas.encodable)) (df_columns d :: render d) =
  forallb (fun r => forallb Pandas.encodable (row_texte r)
                    && forallb Pandas.encodable (row_source r))
          (base_rows d).
Proof.
  assert (Hi : forall n, forallb Pandas.encodable (str_int n) = true).
  { intros n. apply digits_encodable, PandasFacts.str_int_digits. }
  destruct d as [|rows|rows]; [reflexivity| |].
  - cbn [forallb].
    change (forallb (forallb Pandas.encodable) (df_columns (DfBase rows))) with true.
    cbn [andb]. unfold render, items, base_rows. rewrite !map_map.
    induction rows as [|r rows IH]; [reflexivity|].
    cbn [map forallb]. rewrite IH. unfold record_of. cbn [fst snd app forallb].
    rewrite Hi. cbn [andb]. now rewrite andb_true_r.
  - cbn [forallb].
    change (forallb (forallb Pandas.encodable) (df_columns (DfStats rows))) with true.
    cbn [andb]. unfold render, items, base_rows. rewrite !map_map.
    induction rows as [|[r k] rows IH]; [reflexivity|].
    cbn [map forallb]. rewrite IH. unfold record_of, render_counts.
    cbn [fst snd app forallb].
    rewrite !Hi. cbn [andb]. now rewrite andb_true_r.
Qed.

Lemma write_lines_spec (q : bool) (rs : list (list pystr)) :
  exists k,
    k <= List.length rs /\
    fst (Pandas.write_lines q rs) = Pandas.write_rows q (firstn k rs) /\
    forallb (fun r => forallb Pandas.encodable (Pandas.write_row q r))
            (firstn k rs) = true /\
    match nth_error rs k with
    | None => snd (Pandas.write_lines q rs) = true
    | Some r =>
        snd (Pandas.write_lines q rs) = false /\
        forallb Pandas.encodable (Pandas.write_row q r) = false
    end.
Proof.
  induction rs as [|r rs (k & Hk & Hfst & Hall & Hnth)].
  - exists 0. repeat split. apply Nat.le_refl.
  - cbn [Pandas.write_lines].
    destruct (forallb Pandas.encodable (Pandas.write_row q r)) eqn:Er.
    + exists (S k). destruct (Pandas.write_lines q rs) as [text done].
      cbn [fst snd] in *. cbn [firstn nth_error forallb List.length].
      rewrite Er, Hall. repeat split; [lia| |exact Hnth].
      unfold Pandas.write_rows in *. cbn [map List.concat]. now rewrite Hfst.
    + exists 0. cbn [firstn nth_error fst snd forallb List.length].
      repeat split; [lia|exact Er].
Qed.

(** X19.  [save] changes no file but the named one.  On an empty store it
    returns without touching the file system, whatever the path.  On a
    non-empty store and a path that cannot be opened it raises [OSError]
    and writes nothing.  Otherwise it returns normally exactly when every
    text and every source can be encoded, and the named file is replaced
    by the header and the records that come before the first record that
    cannot be encoded: all of them when there is no such record, else
    [UnicodeEncodeError] is raised. *)
Theorem save_outcomes :
  forall (quote_cr : bool) (filename : pystr) (c : Corpus pystr)
         (fs : Pandas.FS),
    let fs' := fst (save quote_cr filename c fs) in
    let raised := snd (save quote_cr filename c fs) in
    let rows := df_columns (df c) :: render (df c) in
    (forall p, p <> filename -> Pandas.content fs' p = Pandas.content fs p) /\
    Pandas.can_open fs' = Pandas.can_open fs /\
    if df_empty (df c) then fs' = fs /\ raised = Ok tt
    else if Pandas.can_open fs filename then
      (raised = Ok tt <->
       forallb (fun r => forallb Pandas.encodable (row_texte r)
                         && forallb Pandas.encodable (row_source r))
               (base_rows (df c)) = true) /\
      exists k,
        k <= List.length rows /\
        Pandas.content fs' filename =
          Some (Pandas.write_rows quote_cr (firstn k rows)) /\
        forallb (fun r => forallb Pandas.encodable (Pandas.write_row quote_cr r))
                (firstn k rows) = true /\
        match nth_error rows k with
        | None => raised = Ok tt
        | Some r =>
            raised = Raise UnicodeEncodeError /\
            forallb Pandas.encodable (Pandas.write_row quote_cr r) = false
        end
    else fs' = fs /\ raised = Raise OSError.
Proof.
  intros q f c fs fs' raised rows. subst fs' raised. unfold save.
  destruct (df_empty (df c)); [cbn [fst snd]; auto|].
  destruct (Pandas.can_open fs f) eqn:Eo; [|cbn [fst snd]; auto].
  unfold Pandas.to_csv. fold rows.
  destruct (write_lines_spec q rows) as (k & Hk & Hfst & Hall & Hnth).
  pose proof (write_lines_done q rows) as Hdone.
  unfold rows in Hdone at 2. rewrite table_encodable_iff in Hdone.
  destruct (Pandas.write_lines q rows) as [text done]. cbn [fst snd] in *.
  unfold Pandas.write_file. cbn [Pandas.content Pandas.can_open].
  split; [|split; [reflexivity|split]].
  - intros p Hp. apply str_eqb_neq in Hp. now rewrite Hp.
  - rewrite <- Hdone. destruct done; split; congruence.
  - exists k. rewrite str_eqb_refl, Hfst.
    split; [exact Hk|]. split; [reflexivity|]. split; [exact Hall|].
    destruct (nth_error rows k) as [r|].
    + destruct Hnth as (-> & Hr). split; [reflexivity|exact Hr].
    + now rewrite Hnth.
Qed.

(** A store whose second text cannot be encoded, a path that cannot be
    opened, and the store of the scenario saved. *)
Lemma save_outcomes_witness :
  (Pandas.content
     (fst (save false (lit "corpus.csv") surrogate_store no_files))
     (lit "other.csv") = None) /\
  save false (lit "data/corpus.csv") scenario_store no_directory =
    (no_directory, Raise OSError) /\
  snd (save false (lit "corpus.csv") scenario_store no_files) = Ok tt.
Proof.
  split; [|split].
  - refine (proj1 (save_outcomes false (lit "corpus.csv") surrogate_store no_files)
              (lit "other.csv") _).
    discriminate.
  - destruct (proj2 (proj2 (save_outcomes false (lit "data/corpus.csv")
                              scenario_store no_directory))) as (H1 & H2).
    destruct (save false (lit "data/corpus.csv") scenario_store no_directory)
      as [fs' r]. cbn [fst snd] in *. now subst.
  - exact (proj2 (proj1 (proj2 (proj2 (save_outcomes false (lit "corpus.csv")
                                         scenario_store no_files)))) eq_refl).
Defined.

(** What is left of the file when the second text cannot be encoded. *)
Example failed_save_leaves_the_first_lines :
  save false (lit "corpus.csv") surrogate_store no_files =
  (Pandas.write_file no_files (lit "corpus.csv")
     (lit "id" ++ TAB :: lit "texte" ++ TAB :: lit "source" ++ NL ::
      lit "0" ++ TAB :: lit "fine" ++ TAB :: lit "reddit" ++ [NL]),
   Raise UnicodeEncodeError).
Proof. reflexivity. Qed.

(** thresholds at the edges *)
Lemma filter_all {A} (f : A -> bool) (l : list A) :
  Forall (fun x => f x = true) l -> filter f l = l.
Proof.
  induction 1 as [|x l Hx _ IH]; [reflexivity|]. cbn [filter]. now rewrite Hx, IH.
Qed.

Lemma filter_none {A} (f : A -> bool) (l : list A) :
  Forall (fun x => f x = false) l -> filter f l = [].
Proof.
  induction 1 as [|x l Hx _ IH]; [reflexivity|]. cbn [filter]. now rewrite Hx, IH.
Qed.

(** X20.  With a negative threshold [clean] removes nothing: the
    (texte, source) pairs and the size are unchanged, and the ids are
    0..n-1. *)
Theorem clean_below_zero_removes_nothing :
  forall (m : Z) (c : Corpus pystr),
    (m < 0)%Z ->
    text_source (df (fst (clean m c))) = text_source (df c) /\
    len (fst (clean m c)) = len c /\
    ids (df (fst (clean m c))) = seq 0 (len c).
Proof.
  intros m c Hm.
  assert (Ht : text_source (df (fst (clean m c))) = text_source (df c)).
  { rewrite clean_text_source. apply filter_all. apply Forall_forall.
    intros p _. unfold kept. apply Z.ltb_lt. lia. }
  assert (Hl : len (fst (clean m c)) = len c).
  { apply (f_equal (@List.length _)) in Ht. unfold text_source in Ht.
    rewrite !length_map in Ht. exact Ht. }
  split; [exact Ht|]. split; [exact Hl|].
  rewrite clean_ids. now rewrite Hl.
Qed.

Lemma clean_below_zero_removes_nothing_witness :
  len (fst (clean (-1) scenario_store)) = 2.
Proof.
  exact (proj1 (proj2 (@clean_below_zero_removes_nothing (-1) scenario_store eq_refl))).
Defined.

(** X21.  When no text is longer than the threshold, [clean] leaves a
    store of size 0 that keeps its columns; on it a further [clean],
    [get_stats], [show_sample] and [save] do nothing, and [to_text] is the
    empty string. *)
Theorem emptied_store_is_inert :
  forall (m : Z) (c : Corpus pystr),
    df_empty (df c) = false ->
    Forall (fun p => (Z.of_nat (List.length (fst p)) <= m)%Z) (text_source (df c)) ->
    let c' := fst (clean m c) in
    len c' = 0 /\
    df_columns (df c') = df_columns (df c) /\
    (forall m', clean m' c' = (c', None)) /\
    get_stats c' = (c', None) /\
    to_text c' = empty /\
    (forall n, show_sample n c' = None) /\
    (forall quote_cr filename fs, save quote_cr filename c' fs = (fs, Ok tt)).
Proof.
  intros m c E Hall c'.
  assert (Hts : text_source (df c') = []).
  { unfold c'. rewrite clean_text_source. apply filter_none.
    eapply Forall_impl; [|exact Hall]. intros p Hp. unfold kept.
    apply Z.ltb_ge. exact Hp. }
  assert (He : df_empty (df c') = true).
  { unfold text_source in Hts. unfold df_empty.
    destruct (base_rows (df c')); [reflexivity|discriminate Hts]. }
  split.
  { unfold len, df_len. unfold text_source in Hts.
    apply (f_equal (@List.length _)) in Hts. now rewrite length_map in Hts. }
  split.
  { unfold c'. rewrite (clean_nonempty m c E). cbn [df].
    destruct (df c); reflexivity. }
  split; [intros m'; now apply clean_empty|].
  split; [unfold get_stats; now rewrite He|].
  split; [unfold to_text; now rewrite He|].
  split; [intros n; unfold show_sample; now rewrite He|].
  intros q f fs. unfold save. now rewrite He.
Qed.

Lemma emptied_store_is_inert_witness :
  len (fst (clean 18 scenario_store)) = 0 /\
  to_text (fst (clean 18 scenario_store)) = empty.
Proof.
  assert (H : Forall (fun p => (Z.of_nat (List.length (fst p)) <= 18)%Z)
                     (text_source (df scenario_store))).
  { repeat constructor; discriminate. }
  destruct (@emptied_store_is_inert 18 scenario_store eq_refl H)
    as (H1 & _ & _ & _ & H5 & _).
  split; [exact H1 | exact H5].
Defined.

End StoreExtras.

Module PipelineExtras.
Import Py Acquisition Store PyFacts AcquisitionFacts StoreFacts PersistFacts.
Import AcquisitionExtras StoreExtras.

Lemma sources_new (l : list (Doc pystr)) :
  sources (df (new l)) = map (@source pystr) l.
Proof.
  pose proof (text_source_new l) as H. unfold sources.
  unfold text_source in H. apply (f_equal (map snd)) in H.
  rewrite !map_map in H. cbn [snd] in H. exact H.
Qed.

Lemma occurrences_app (s : pystr) (a b : list pystr) :
  occurrences s (a ++ b) = occurrences s a + occurrences s b.
Proof. unfold occurrences. now rewrite filter_app, length_app. Qed.

Lemma occurrences_all (s : pystr) (l : list (Doc pystr)) :
  Forall (fun d => source d = s) l ->
  occurrences s (map (@source pystr) l) = List.length l.
Proof.
  induction 1 as [|d l Hd _ IH]; [reflexivity|].
  cbn [map]. rewrite occurrences_cons, Hd, str_eqb_refl, IH. reflexivity.
Qed.

Lemma occurrences_none (s s' : pystr) (l : list (Doc pystr)) :
  s <> s' -> Forall (fun d => source d = s') l ->
  occurrences s (map (@source pystr) l) = 0.
Proof.
  intros Hs. induction 1 as [|d l Hd _ IH]; [reflexivity|].
  cbn [map]. rewrite occurrences_cons, Hd, IH.
  apply str_eqb_neq in Hs. now rewrite Hs.
Qed.

Lemma get_stats_report (c : Corpus pystr) (r : StatsReport) :
  snd (get_stats c) = Some r ->
  total r = len c /\ par_source r = value_counts (sources (df c)).
Proof.
  unfold get_stats. destruct (df_empty (df c)); [discriminate|].
  cbn [snd]. intros H. injection H as <-. split; reflexivity.
Qed.

(** X22.  For the store built from what [get_docs] returns, [get_stats]
    reports the number of documents, and its per-source counts can only
    be reddit with the number of submissions and arxiv with the number of
    remaining documents. *)
Theorem stats_of_acquired_documents :
  forall results articles docs r,
    get_docs results articles = Ok docs ->
    snd (get_stats (new docs)) = Some r ->
    total r = List.length docs /\
    forall s n,
      In (s, n) (par_source r) ->
      (s = lit "reddit" /\ n = List.length results) \/
      (s = lit "arxiv" /\ n + List.length results = List.length docs).
Proof.
  intros results articles docs r Hd Hr.
  destruct (get_docs_split _ _ Hd) as (dr & da & -> & _ & _ & Hlen & Htr & Hta).
  apply get_stats_report in Hr as (Ht & Hp). rewrite Hp, sources_new.
  split; [now rewrite Ht, len_new|].
  intros s n Hin.
  destruct (value_counts_spec (map (@source pystr) (dr ++ da)))
    as (_ & Hkeys & Hcount & _).
  pose proof (Hcount s n Hin) as Hn.
  assert (Hs : In s (map (@source pystr) (dr ++ da))).
  { apply Hkeys. change s with (fst (s, n)). now apply in_map. }
  rewrite map_app in Hn, Hs. rewrite occurrences_app in Hn.
  apply in_app_or in Hs as [Hs|Hs]; apply in_map_iff in Hs as (d & <- & Hd').
  - left. rewrite (proj1 (Forall_forall _ _) Htr d Hd') in *.
    split; [reflexivity|].
    rewrite (occurrences_all Htr), (@occurrences_none (lit "reddit") (lit "arxiv") da) in Hn;
      [lia | discriminate | exact Hta].
  - right. rewrite (proj1 (Forall_forall _ _) Hta d Hd') in *.
    split; [reflexivity|].
    rewrite (occurrences_all Hta), (@occurrences_none (lit "arxiv") (lit "reddit") dr) in Hn;
      [rewrite length_app; lia | discriminate | exact Htr].
Qed.

Lemma stats_of_acquired_documents_witness :
  exists docs r,
    get_docs [sample_submission] (feed_of (VList [sample_entry; sample_entry])) = Ok docs /\
    snd (get_stats (new docs)) = Some r /\ total r = 3.
Proof.
  destruct (get_docs [sample_submission] (feed_of (VList [sample_entry; sample_entry])))
    as [docs|] eqn:E; [|discriminate E].
  destruct (snd (get_stats (new docs))) as [r|] eqn:Er.
  - exists docs, r. split; [reflexivity|]. split; [exact Er|].
    rewrite (proj1 (stats_of_acquired_documents _ _ E Er)).
    injection E as <-. reflexivity.
  - exfalso. injection E as <-. discriminate Er.
Defined.

Lemma load_doc_extra (cols : list pystr) (record : list Pandas.cell)
      (d : Doc Pandas.cell) :
  load_doc cols record = Ok d -> extra d = [].
Proof.
  unfold load_doc. intros H. repeat bind_ok H. now injection H as <-.
Qed.

(** X23.  A store returned by [load] is built from documents that have a
    text and a source and no other key; its table holds them in file
    order under the ids 0..n-1, with the three columns id, texte, source
    (no column at all when the file has no data line). *)
Theorem load_keeps_text_and_source_only :
  forall (is_number : pystr -> bool) (fs : Pandas.FS) (filename : pystr)
         (c : Corpus Pandas.cell),
    load is_number fs filename = Ok c ->
    Forall (fun d => extra d = []) (docs c) /\
    text_source (df c) = map (fun d => (texte d, source d)) (docs c) /\
    ids (df c) = seq 0 (List.length (docs c)) /\
    df_columns (df c) =
      match docs c with
      | [] => []
      | _ :: _ => [lit "id"; lit "texte"; lit "source"]
      end.
Proof.
  intros is_number fs filename c H. unfold load in H.
  bind_ok H. bind_ok H. injection H as <-. cbn [docs].
  split; [|split; [|split]].
  - eapply mapM_ok_forall; [|exact E0]. intros r d. apply load_doc_extra.
  - apply text_source_new.
  - rewrite new_ids. now rewrite len_new.
  - destruct a0; reflexivity.
Qed.

Lemma load_keeps_text_and_source_only_witness :
  exists c,
    load digits_only (Pandas.write_file no_files (lit "corpus.csv") two_column_file)
         (lit "corpus.csv") = Ok c /\
    Forall (fun d => extra d = []) (docs c).
Proof.
  destruct (load digits_only
              (Pandas.write_file no_files (lit "corpus.csv") two_column_file)
              (lit "corpus.csv")) as [c|] eqn:El.
  - exists c. split; [reflexivity|].
    exact (proj1 (load_keeps_text_and_source_only _ _ _ El)).
  - vm_compute in El. discriminate El.
Defined.

End PipelineExtras.
